(** * Best Buy scraper API: a shallow embedding of [main.py]

The service has two handlers, [fetch_categories] and
[fetch_category_products], built on [fetch_page_source].  The code
is embedded as follows.

- A Python [str] is a Rocq [string]; one [ascii] stands for one code
  point below 256, and [lower] and [strip] act on it as Python's
  [str.lower] and [str.strip] act on those code points.  The name
  resolution of line 96 is embedded a second time in [Unicode], over
  names of any code points and with [str.lower] as a parameter; on
  names below 256 the two agree.
- The document BeautifulSoup hands back is a tree of [tag]s and
  strings.  [select], [select_one], [find], [get_text], [text] and
  subscription walk that tree as the library walks its own.
- Exceptions are values of [exn]; a computation returns [Ok] or
  [Raise], and [try_except_Exception] catches what Python's
  [except Exception] catches.
- The browser is a script of outcomes, one per Playwright call; a
  run of [fetch_page_source] threads the trace of the calls it issued
  and what those calls opened and closed.  What the exit of
  [async with] does inside Playwright is not part of the model. *)

From Stdlib Require Import NArith Ascii String Decimal DecimalString.
From stdpp Require Import base option list strings gmap.

(** ** Python strings *)

Module Str.

Definition code (c : ascii) : N := N_of_ascii c.

(** [str.lower] on one code point below 256: the ASCII capitals and
    the Latin-1 capitals other than the multiplication sign.  On names
    of such code points [str.lower] works one code point at a time;
    module [Unicode] has the resolution for names of any code points. *)
Definition lower_char (c : ascii) : ascii :=
  let n := code c in
  if ((65 <=? n) && (n <=? 90))%N
     || ((192 <=? n) && (n <=? 222) && negb (n =? 215))%N
  then ascii_of_N (n + 32)
  else c.

Fixpoint lower (s : string) : string :=
  match s with
  | EmptyString => EmptyString
  | String c t => String (lower_char c) (lower t)
  end.

(** The code points below 256 that [str.strip] removes. *)
Definition is_space (c : ascii) : bool :=
  let n := code c in
  (((9 <=? n) && (n <=? 13)) || ((28 <=? n) && (n <=? 32))
   || (n =? 133) || (n =? 160))%N.

Fixpoint lstrip (s : string) : string :=
  match s with
  | EmptyString => EmptyString
  | String c t => if is_space c then lstrip t else s
  end.

Definition rstrip (s : string) : string :=
  String.rev (lstrip (String.rev s)).

Definition strip (s : string) : string := rstrip (lstrip s).

(** [needle in hay] *)
Fixpoint contains (needle hay : string) : bool :=
  String.prefix needle hay
  || match hay with
     | EmptyString => false
     | String _ t => contains needle t
     end.

(** [sep.join(parts)] with the empty separator. *)
Definition join (parts : list string) : string :=
  foldr String.app EmptyString parts.

Definition is_empty (s : string) : bool :=
  match s with EmptyString => true | _ => false end.

(** [str(n)] for a natural number. *)
Definition of_nat (n : nat) : string :=
  NilEmpty.string_of_uint (Nat.to_uint n).

End Str.

(** ** The parsed document *)

Module Soup.

Inductive page_element (T : Type) : Type :=
| ElemTag (t : T)
| ElemString (s : string).
Arguments ElemTag {T} t.
Arguments ElemString {T} s.

(** A [Tag]: its name, the value of its [class] attribute (which the
    library keeps as a list), its other attributes, its children. *)
#[warnings="-register-all"]
Inductive tag : Type :=
| Tag (name : string) (classes : list string)
      (attrs : gmap string string) (contents : list (page_element tag)).

Definition name (t : tag) : string := let 'Tag n _ _ _ := t in n.
Definition classes (t : tag) : list string := let 'Tag _ c _ _ := t in c.
Definition attrs (t : tag) : gmap string string := let 'Tag _ _ a _ := t in a.
Definition contents (t : tag) : list (page_element tag) :=
  let 'Tag _ _ _ c := t in c.

(** A tag together with its [parents], nearest first: what a Python
    reference to a [Tag] object gives access to. *)
Record element : Type := Element { parents : list tag; here : tag }.

(** [tag.descendants], tags only, in document order. *)
Fixpoint descendants (ps : list tag) (t : tag) : list element :=
  (fix walk (l : list (page_element tag)) : list element :=
     match l with
     | [] => []
     | ElemTag c :: l' =>
         Element (t :: ps) c :: descendants (t :: ps) c ++ walk l'
     | ElemString _ :: l' => walk l'
     end) (contents t).

(** The strings below a tag, in document order. *)
Fixpoint all_strings (t : tag) : list string :=
  (fix walk (l : list (page_element tag)) : list string :=
     match l with
     | [] => []
     | ElemTag c :: l' => all_strings c ++ walk l'
     | ElemString s :: l' => s :: walk l'
     end) (contents t).

(** A compound selector [name] or [name.class]. *)
Record compound : Type := Compound { sel_name : string; sel_class : option string }.

(** A selector: compounds joined by the descendant combinator, the
    subject last. *)
Record selector : Type := Selector { sel_ancestors : list compound; sel_subject : compound }.

Definition matches_compound (c : compound) (t : tag) : bool :=
  bool_decide (name t = sel_name c)
  && match sel_class c with
     | None => true
     | Some k => bool_decide (k ∈ classes t)
     end.

(** [inner] lists the ancestor compounds innermost first; each must be
    matched by a parent further out than the one before. *)
Fixpoint matches_ancestors (inner : list compound) (ps : list tag) : bool :=
  match inner with
  | [] => true
  | c :: inner' =>
      match ps with
      | [] => false
      | p :: ps' =>
          if matches_compound c p then matches_ancestors inner' ps'
          else matches_ancestors inner ps'
      end
  end.

Definition matches (s : selector) (e : element) : bool :=
  matches_compound (sel_subject s) (here e)
  && matches_ancestors (rev (sel_ancestors s)) (parents e).

Definition descendants_of (e : element) : list element :=
  descendants (parents e) (here e).

(** [e.select(s)] *)
Definition select (s : selector) (e : element) : list element :=
  filter (fun d => matches s d = true) (descendants_of e).

(** [e.select_one(s)] *)
Definition select_one (s : selector) (e : element) : option element :=
  head (select s e).

(** [e.find(n)] *)
Definition find (n : string) (e : element) : option element :=
  head (filter (fun d => name (here d) = n) (descendants_of e)).

(** [e.get_text(strip=True)] *)
Definition get_text_strip (e : element) : string :=
  Str.join (filter (fun s => Str.is_empty s = false)
                   (map Str.strip (all_strings (here e)))).

(** [e.text] *)
Definition text (e : element) : string := Str.join (all_strings (here e)).

End Soup.

(** ** Exceptions and results *)

Module Py.

Inductive exn : Type :=
| HTTPException (status_code : nat) (detail : string)
| KeyError (key : string)
| PlaywrightError (message : string)
| CancelledError.

(** [isinstance(e, Exception)]: the task-cancellation error derives
    from [BaseException] only; the others derive from [Exception]. *)
Definition is_Exception (e : exn) : bool :=
  match e with
  | CancelledError => false
  | _ => true
  end.

(** [str(e)].  The HTTP exception prints as its status and detail; a
    [KeyError] prints the [repr] of its key, which for the keys of
    this program (letters only) is the key between single quotes. *)
Definition str (e : exn) : string :=
  match e with
  | HTTPException status_code detail =>
      Str.of_nat status_code +:+ ": " +:+ detail
  | KeyError key => "'" +:+ key +:+ "'"
  | PlaywrightError message => message
  | CancelledError => EmptyString
  end.

Inductive result (A : Type) : Type :=
| Ok (a : A)
| Raise (e : exn).
Arguments Ok {A} a.
Arguments Raise {A} e.

Definition bind {A B} (r : result A) (k : A -> result B) : result B :=
  match r with
  | Ok a => k a
  | Raise e => Raise e
  end.

(** [for x in xs: acc = body(x, acc)], stopping at the first raise. *)
Fixpoint for_each {A S} (body : A -> S -> result S) (xs : list A) (acc : S)
  : result S :=
  match xs with
  | [] => Ok acc
  | x :: xs' => bind (body x acc) (for_each body xs')
  end.

(** [tag[key]] *)
Definition getitem (e : Soup.element) (key : string) : result string :=
  match Soup.attrs (Soup.here e) !! key with
  | Some v => Ok v
  | None => Raise (KeyError key)
  end.

(** The status of the HTTP response the framework sends for a
    handler's outcome. *)
Definition http_status {A} (r : result A) : nat :=
  match r with
  | Ok _ => 200
  | Raise (HTTPException status_code _) => status_code
  | Raise _ => 500
  end.

End Py.

(** ** The headless browser *)

Module Browser.
Import Py.

(** The calls [fetch_page_source] can issue. *)
Inductive event : Type :=
| EvStart
| EvLaunch
| EvNewPage
| EvGoto (url : string)
| EvContent
| EvClick (selector : string)
| EvWaitForLoadState (state : string)
| EvBrowserClose
| EvStop.

Global Instance event_eq_dec : EqDecision event.
Proof. solve_decision. Defined.

(** What the outside world answers to each call of one run: [None]
    for a call that returns, [Some e] for one that raises [e].  The
    page is read more than once, so [on_content] is indexed by the
    number of reads before it. *)
Record script : Type := Script {
  on_start : option exn;
  on_launch : option exn;
  on_new_page : option exn;
  on_goto : option exn;
  on_content : nat -> result string;
  on_click : option exn;
  on_wait : option exn;
  on_close : option exn
}.

(** What the calls of one run have done so far: the driver was started
    and not stopped, the browser was launched and no call has closed
    it, a page was opened and no call has closed it, and the calls
    issued. *)
Record state : Type := State {
  driver_running : bool;
  browser_open : bool;
  page_open : bool;
  trace : list event
}.

Definition initial : state := State false false false [].


Definition B (A : Type) : Type := state -> result A * state.

Definition ret {A} (a : A) : B A := fun s => (Ok a, s).

Definition bind {A C} (m : B A) (k : A -> B C) : B C :=
  fun s =>
    match m s with
    | (Ok a, s') => k a s'
    | (Raise e, s') => (Raise e, s')
    end.

Notation "'do' x <- m ; k" := (bind m (fun x => k))
  (at level 10, x name, m at level 100, k at level 200,
   format "'[v' 'do'  x  <-  m ; '/' k ']'").
Notation "'run' m ; k" := (bind m (fun _ => k))
  (at level 10, m at level 100, k at level 200,
   format "'[v' 'run'  m ; '/' k ']'").

Definition log (ev : event) (s : state) : state :=
  State (driver_running s) (browser_open s) (page_open s) (trace s ++ [ev]).

(** A call: it is recorded, then it either raises or takes effect. *)
Definition call (ev : event) (outcome : option exn) (effect : state -> state)
  : B unit :=
  fun s =>
    match outcome with
    | None => (Ok tt, effect (log ev s))
    | Some e => (Raise e, log ev s)
    end.

Definition set_browser (b : bool) (s : state) : state :=
  State (driver_running s) b (page_open s) (trace s).
Definition set_page (b : bool) (s : state) : state :=
  State (driver_running s) (browser_open s) b (trace s).

(** Closing the browser closes its pages. *)
Definition close_all (s : state) : state :=
  State (driver_running s) false false (trace s).

(** The exit of the block stops the driver.  What that does to a
    browser the block left open happens inside Playwright and is not
    recorded: [browser_open] and [page_open] change only through the
    calls [fetch_page_source] itself makes. *)
Definition stop_driver (s : state) : state :=
  State false (browser_open s) (page_open s) (trace s ++ [EvStop]).

Definition start_driver (s : state) : state :=
  State true (browser_open s) (page_open s) (trace s).

Section Run.
Variable sc : script.

(** [p.chromium.launch(headless=True)] *)
Definition chromium_launch : B unit :=
  call EvLaunch (on_launch sc) (set_browser true).

(** [browser.new_page()] *)
Definition new_page : B unit :=
  call EvNewPage (on_new_page sc) (set_page true).

(** [page.goto(url)] *)
Definition page_goto (url : string) : B unit :=
  call (EvGoto url) (on_goto sc) id.

(** [page.content()] *)
Definition page_content : B string :=
  fun s => (on_content sc (count_occ event_eq_dec (trace s) EvContent),
            log EvContent s).

(** [page.click(selector)] *)
Definition page_click (selector : string) : B unit :=
  call (EvClick selector) (on_click sc) id.

(** [page.wait_for_load_state(st)] *)
Definition page_wait_for_load_state (st : string) : B unit :=
  call (EvWaitForLoadState st) (on_wait sc) id.

(** [browser.close()] *)
Definition browser_close : B unit :=
  call EvBrowserClose (on_close sc) close_all.

(** [async with async_playwright() as p: body].  When the driver
    starts, the exit handler runs however the body ends, and lets
    the body's exception through. *)
Definition async_with_playwright {A} (body : B A) : B A :=
  fun s =>
    match call EvStart (on_start sc) start_driver s with
    | (Ok _, s1) => let (r, s2) := body s1 in (r, stop_driver s2)
    | (Raise e, s1) => (Raise e, s1)
    end.

(** The block under [async with] (lines 36 to 44). *)
Definition fetch_page_source_block (url : string) : B string :=
  run chromium_launch;
  run new_page;
  run page_goto url;
  do c <- page_content;
  run (if Str.contains "Choose a country" c
       then run page_click "a.us-link";
            page_wait_for_load_state "networkidle"
       else ret tt);
  do content <- page_content;
  run browser_close;
  ret content.

Definition fetch_page_source (url : string) : B string :=
  async_with_playwright (fetch_page_source_block url).

End Run.

End Browser.

(** ** The handlers *)

Module Api.
Import Py.

Definition BASE_URL : string := "https://www.bestbuy.com".

(** [{'name': ..., 'url': ...}] *)
Record category : Type := Category { cat_name : string; cat_url : string }.

(** [{'name': ..., 'photo': ..., 'price': ...}] *)
Record product : Type :=
  Product { prod_name : string; prod_photo : string; prod_price : string }.

(** What a handler returns: [{"categories": ...}] or [{"products": ...}]. *)
Inductive response : Type :=
| Categories (categories : list category)
| Products (products : list product).

Definition carousel_item : Soup.selector :=
  Soup.Selector [] (Soup.Compound "li" (Some "c-carousel-item")).
Definition sku_item : Soup.selector :=
  Soup.Selector [] (Soup.Compound "li" (Some "sku-item")).
Definition sku_title_a : Soup.selector :=
  Soup.Selector [Soup.Compound "h4" (Some "sku-title")] (Soup.Compound "a" None).
Definition product_image : Soup.selector :=
  Soup.Selector [] (Soup.Compound "img" (Some "product-image")).
Definition hero_price_span : Soup.selector :=
  Soup.Selector [Soup.Compound "div" (Some "priceView-hero-price")]
                (Soup.Compound "span" None).

(** The body of the loop of [fetch_categories] (lines 60 to 64). *)
Definition fetch_categories_body (item : Soup.element)
    (categories : list category) : result (list category) :=
  match Soup.find "a" item with
  | Some category =>
      let name := Soup.get_text_strip category in
      bind (getitem category "href") (fun url =>
      Ok (categories ++ [Category name (BASE_URL +:+ url)]))
  | None => Ok categories
  end.

(** Lines 58 to 64 of [fetch_categories]. *)
Definition fetch_categories_extract (soup : Soup.element)
  : result (list category) :=
  for_each fetch_categories_body (Soup.select carousel_item soup) [].

(** The body of the first loop of [fetch_category_products] (lines 89
    to 93). *)
Definition fetch_category_products_body (item : Soup.element)
    (categories : list category) : result (list category) :=
  match Soup.find "a" item with
  | Some category =>
      let name := Soup.get_text_strip category in
      bind (getitem category "href") (fun url =>
      Ok (categories ++ [Category name (BASE_URL +:+ url)]))
  | None => Ok categories
  end.

(** Lines 87 to 93 of [fetch_category_products]. *)
Definition fetch_category_products_extract (soup : Soup.element)
  : result (list category) :=
  for_each fetch_category_products_body (Soup.select carousel_item soup) [].

(** Line 96: [next((cat for cat in categories if ...), None)]. *)
Fixpoint next_match (categories : list category) (category_name : string)
  : option category :=
  match categories with
  | [] => None
  | cat :: rest =>
      if bool_decide (Str.lower (cat_name cat) = Str.lower category_name)
      then Some cat
      else next_match rest category_name
  end.

(** The body of the second loop of [fetch_category_products] (lines
    105 to 113). *)
Definition products_body (item : Soup.element) (products : list product)
  : result (list product) :=
  let name_tag := Soup.select_one sku_title_a item in
  let image_tag := Soup.select_one product_image item in
  let price_tag := Soup.select_one hero_price_span item in
  match name_tag, image_tag, price_tag with
  | Some name_tag, Some image_tag, Some price_tag =>
      let name := Str.strip (Soup.text name_tag) in
      bind (getitem image_tag "src") (fun photo =>
      let price := Str.strip (Soup.text price_tag) in
      Ok (products ++ [Product name photo price]))
  | _, _, _ => Ok products
  end.

(** Lines 103 to 113 of [fetch_category_products]. *)
Definition products_extract (soup : Soup.element) : result (list product) :=
  for_each products_body (Soup.select sku_item soup) [].

(** One page fetch, as the handlers see it: the address asked for and
    the browser run it caused. *)
Record fetch : Type := Fetch { fetch_url : string; fetch_run : Browser.state }.

(** A handler runs against the fetches made so far. *)
Definition H (A : Type) : Type := list fetch -> result A * list fetch.

Definition hret {A} (a : A) : H A := fun w => (Ok a, w).

Definition hraise {A} (e : exn) : H A := fun w => (Raise e, w).

Definition hbind {A C} (m : H A) (k : A -> H C) : H C :=
  fun w =>
    match m w with
    | (Ok a, w') => k a w'
    | (Raise e, w') => (Raise e, w')
    end.

Definition lift {A} (r : result A) : H A := fun w => (r, w).

Notation "'do' x <- m ; k" := (hbind m (fun x => k))
  (at level 10, x name, m at level 100, k at level 200,
   format "'[v' 'do'  x  <-  m ; '/' k ']'").

(** [try: body / except Exception as e: handler(e)] *)
Definition try_except_Exception {A} (body : H A) (handler : exn -> H A) : H A :=
  fun w =>
    match body w with
    | (Ok a, w') => (Ok a, w')
    | (Raise e, w') =>
        if is_Exception e then handler e w' else (Raise e, w')
    end.

Section Handlers.
(** [BeautifulSoup(page_source, "html.parser")] *)
Variable html_parser : string -> Soup.tag.
(** The script the browser follows on the n-th fetch, for each
    address. *)
Variable web : nat -> string -> Browser.script.

Definition BeautifulSoup (page_source : string) : Soup.element :=
  Soup.Element [] (html_parser page_source).

(** The browser run behind the next fetch of [url]. *)
Definition next_run (w : list fetch) (url : string)
  : result string * Browser.state :=
  Browser.fetch_page_source (web (length w) url) url Browser.initial.

(** [await fetch_page_source(url)]: a fresh browser run. *)
Definition fetch_page_source (url : string) : H string :=
  fun w => let (r, s) := next_run w url in (r, w ++ [Fetch url s]).

Definition fetch_categories : H response :=
  try_except_Exception (
    do page_source <- fetch_page_source BASE_URL;
    let soup := BeautifulSoup page_source in
    do categories <- lift (fetch_categories_extract soup);
    hret (Categories categories))
  (fun e => hraise (HTTPException 500 (str e))).

Definition fetch_category_products (category_name : string) : H response :=
  try_except_Exception (
    do page_source <- fetch_page_source BASE_URL;
    let soup := BeautifulSoup page_source in
    do categories <- lift (fetch_category_products_extract soup);
    match next_match categories category_name with
    | None =>
        hraise (HTTPException 404
                  ("Category '" +:+ category_name +:+ "' not found."))
    | Some category =>
        do page_source <- fetch_page_source (cat_url category);
        let soup := BeautifulSoup page_source in
        do products <- lift (products_extract soup);
        hret (Products products)
    end)
  (fun e => hraise (HTTPException 500 (str e))).

End Handlers.

End Api.

(** ** The vocabulary of the properties *)

Module Spec.
Import Py Api.

(** Case-insensitive exact match, one code point against one. *)
Fixpoint eq_ignore_case (a b : string) : bool :=
  match a, b with
  | EmptyString, EmptyString => true
  | String x a', String y b' =>
      bool_decide (Str.lower_char x = Str.lower_char y) && eq_ignore_case a' b'
  | _, _ => false
  end.

(** The first anchors of the items that have one, in the items' order. *)
Definition anchors (items : list Soup.element) : list Soup.element :=
  omap (Soup.find "a") items.

(** The record an anchor stands for, when it has an [href]. *)
Definition category_of (a : Soup.element) : option category :=
  url ← Soup.attrs (Soup.here a) !! "href";
  Some (Category (Soup.get_text_strip a) (BASE_URL +:+ url)).

(** The title anchor, image and price of an item, when all three
    sub-selectors resolve. *)
Definition sku_parts (item : Soup.element)
  : option (Soup.element * Soup.element * Soup.element) :=
  name_tag ← Soup.select_one sku_title_a item;
  image_tag ← Soup.select_one product_image item;
  price_tag ← Soup.select_one hero_price_span item;
  Some (name_tag, image_tag, price_tag).

(** The record three such parts stand for, when the image has a [src]. *)
Definition product_of (parts : Soup.element * Soup.element * Soup.element)
  : option product :=
  let '(name_tag, image_tag, price_tag) := parts in
  photo ← Soup.attrs (Soup.here image_tag) !! "src";
  Some (Product (Str.strip (Soup.text name_tag)) photo
                (Str.strip (Soup.text price_tag))).

Definition is_slash (c : ascii) : bool := bool_decide (c = "/"%char).

Fixpoint lstrip_slashes (path : string) : string :=
  match path with
  | EmptyString => EmptyString
  | String c rest => if is_slash c then lstrip_slashes rest else path
  end.

(** A base and a path joined with exactly one slash between them,
    whether or not the path brings slashes of its own. *)
Definition join_one_separator (base path : string) : string :=
  base +:+ "/" +:+ lstrip_slashes path.

Definition starts_with_slash (path : string) : bool :=
  match path with
  | EmptyString => false
  | String c _ => is_slash c
  end.

(** The path starts with one slash and not with two. *)
Definition one_leading_slash (path : string) : bool :=
  match path with
  | EmptyString => false
  | String c rest => is_slash c && negb (starts_with_slash rest)
  end.

(** The third claim as it is stated, on one document: each emitted
    address is the base joined to the scraped path with exactly one
    separator. *)
Definition urls_joined_with_one_separator (soup : Soup.element) : Prop :=
  forall cats,
    fetch_categories_extract soup = Ok cats ->
    Forall2 (fun a c =>
               exists href,
                 Soup.attrs (Soup.here a) !! "href" = Some href
                 /\ cat_url c = join_one_separator BASE_URL href)
            (anchors (Soup.select carousel_item soup)) cats.

(** The second claim as it is stated, on one document: a record comes
    out for each item whose three sub-selectors resolve, and for no
    other. *)
Definition emits_complete_items (soup : Soup.element) : Prop :=
  exists products,
    products_extract soup = Ok products
    /\ length products = length (omap sku_parts (Soup.select sku_item soup)).

(** The calls that act on the loaded page. *)
Definition is_interaction (ev : Browser.event) : bool :=
  match ev with
  | Browser.EvClick _ | Browser.EvWaitForLoadState _ => true
  | _ => false
  end.

Definition interactions (tr : list Browser.event) : list Browser.event :=
  List.filter is_interaction tr.

(** The calls of a run up to its first read of the page. *)
Definition prologue (url : string) : list Browser.event :=
  [Browser.EvStart; Browser.EvLaunch; Browser.EvNewPage;
   Browser.EvGoto url; Browser.EvContent].

(** Dismissing the country interstitial. *)
Definition interstitial : list Browser.event :=
  [Browser.EvClick "a.us-link"; Browser.EvWaitForLoadState "networkidle"].

(** The final read of the page and the teardown. *)
Definition epilogue : list Browser.event :=
  [Browser.EvContent; Browser.EvBrowserClose; Browser.EvStop].

End Spec.

(** ** Sample pages *)

Module Sample.
Import Soup Py Api.

Definition anchor (href : option string) (label : string) : tag :=
  Tag "a" []
      (match href with Some h => {[ "href" := h ]} | None => ∅ end)
      [ElemString label].

Definition carousel (children : list (page_element tag)) : tag :=
  Tag "li" ["c-carousel-item"] ∅ children.

Definition document (children : list (page_element tag)) : element :=
  Element [] (Tag "[document]" [] ∅ children).

(** A home page: two categories around an item with no anchor; the
    second address has no leading slash. *)
Definition home : element :=
  document
    [ElemTag (Tag "ul" [] ∅
       [ElemTag (carousel [ElemTag (anchor (Some "/site/laptops") "  Laptops ")]);
        ElemTag (carousel [ElemString "Deals"]);
        ElemTag (carousel [ElemTag (Tag "div" [] ∅
                   [ElemTag (anchor (Some "site/tv") "TVs")])])])].

(** A home page with no carousel at all. *)
Definition home_bare : element :=
  document [ElemTag (Tag "p" [] ∅ [ElemString "Choose a country"])].

(** A home page whose carousel anchor has no [href]. *)
Definition home_no_href : element :=
  document [ElemTag (carousel [ElemTag (anchor None "Laptops")])].

(** A home page whose carousel address starts with two slashes. *)
Definition home_two_slashes : element :=
  document [ElemTag (carousel [ElemTag (anchor (Some "//site/tv") "TVs")])].

Definition sku_title (label : string) : page_element tag :=
  ElemTag (Tag "h4" ["sku-title"] ∅
             [ElemTag (Tag "a" [] {[ "href" := "/p" ]} [ElemString label])]).

Definition image (src : option string) : page_element tag :=
  ElemTag (Tag "img" ["product-image"]
               (match src with Some s => {[ "src" := s ]} | None => ∅ end) []).

Definition hero_price (amount : string) : page_element tag :=
  ElemTag (Tag "div" ["priceView-hero-price"] ∅
             [ElemTag (Tag "span" [] ∅ [ElemString amount])]).

Definition sku (children : list (page_element tag)) : page_element tag :=
  ElemTag (Tag "li" ["sku-item"] ∅ children).

(** A listing: a full item, an item with no price, a full item. *)
Definition listing : element :=
  document
    [ElemTag (Tag "ol" [] ∅
       [sku [sku_title " Laptop A "; image (Some "a.jpg"); hero_price " $499.99 "];
        sku [sku_title "Laptop B"; image (Some "b.jpg")];
        sku [sku_title "Laptop C"; image (Some "c.jpg"); hero_price "$899.00"]])].

(** A listing whose only item has all three parts, the image without
    a [src]. *)
Definition listing_no_src : element :=
  document [sku [sku_title "Laptop A"; image None; hero_price "$499.99"]].

(** A parser that knows the pages above by name. *)
Definition parser (pages : list (string * element)) (page_source : string) : tag :=
  match list_find (fun p => p.1 = page_source) pages with
  | Some (_, (_, page)) => here page
  | None => Tag "[document]" [] ∅ []
  end.

Definition pages : list (string * element) :=
  [("home", home); ("bare", home_bare); ("no_href", home_no_href);
   ("listing", listing); ("no_src", listing_no_src)].

(** A browser for which every call returns and every read gives the
    same markup. *)
Definition serves (page_source : string) : Browser.script :=
  Browser.Script None None None None (fun _ => Ok page_source) None None None.

(** A site that serves [front] at the base address and [inner]
    elsewhere. *)
Definition site (front inner : string) (n : nat) (url : string) : Browser.script :=
  if bool_decide (url = BASE_URL) then serves front else serves inner.

(** A browser whose navigation times out. *)
Definition times_out : Browser.script :=
  Browser.Script None None None (Some (PlaywrightError "Timeout 30000ms exceeded."))
                 (fun _ => Ok EmptyString) None None None.

End Sample.

(** ** The vocabulary of the further properties *)

Module Observe.
Import Py Api.

Definition is_goto (ev : Browser.event) : bool :=
  match ev with
  | Browser.EvGoto _ => true
  | _ => false
  end.

(** The navigations of a run. *)
Definition navigations (tr : list Browser.event) : list Browser.event :=
  List.filter is_goto tr.


(** The fetches a handler added to the fetches made before it. *)
Definition added (w out : list fetch) : list fetch := drop (length w) out.

Definition starts_with_space (s : string) : bool :=
  match s with
  | EmptyString => false
  | String c _ => Str.is_space c
  end.

Definition ends_with_space (s : string) : bool :=
  starts_with_space (String.rev s).

(** No white space at either end. *)
Definition trimmed (s : string) : Prop :=
  starts_with_space s = false /\ ends_with_space s = false.

(** A browser that shows the country notice and has no US link to
    click. *)
Definition no_us_link : Browser.script :=
  Browser.Script None None None None (fun _ => Ok "Choose a country")
                 (Some (PlaywrightError "Timeout 30000ms exceeded.")) None None.


(** A browser whose page changes between the two reads. *)
Definition page_changes : Browser.script :=
  Browser.Script None None None None
                 (fun k => Ok (match k with 0 => "loading" | _ => "loaded" end))
                 None None None.

(** A browser whose task is cancelled while it navigates. *)
Definition cancelled : Browser.script :=
  Browser.Script None None None (Some CancelledError)
                 (fun _ => Ok EmptyString) None None None.

(** A site whose home page loads and whose other pages time out. *)
Definition inner_times_out (n : nat) (url : string) : Browser.script :=
  if bool_decide (url = BASE_URL) then Sample.serves "home" else Sample.times_out.

End Observe.

(** ** Names outside Latin-1 *)

Module Unicode.

(** A Python [str] as the list of its code points, any code point. *)
Definition ustr : Type := list N.

(** The code points of a string of the other modules, one for each
    character. *)
Definition codes (s : string) : ustr := N_of_ascii <$> list_ascii_of_string s.

(** [{'name': ..., 'url': ...}] *)
Record category : Type := Category { cat_name : ustr; cat_url : ustr }.

Definition of_category (c : Api.category) : category :=
  Category (codes (Api.cat_name c)) (codes (Api.cat_url c)).

Section Resolution.
(** [str.lower], the built-in. *)
Variable lower : ustr -> ustr.

(** Line 96: [next((cat for cat in categories
    if cat['name'].lower() == category_name.lower()), None)]. *)
Fixpoint next_match (categories : list category) (category_name : ustr)
  : option category :=
  match categories with
  | [] => None
  | cat :: rest =>
      if bool_decide (lower (cat_name cat) = lower category_name)
      then Some cat
      else next_match rest category_name
  end.

End Resolution.

(** What [str.lower] does to a code point of Basic Latin. *)
Definition ascii_lower (c : N) : N :=
  if ((65 <=? c) && (c <=? 90))%N then (c + 32)%N else c.

Definition is_ascii (c : N) : Prop := (c < 128)%N.

(** The code points of Basic Latin. *)
Definition ascii_table : list N := N.of_nat <$> seq 0 128.

(** The letters of the two alphabets this file writes names in, each
    capital beside its small letter; the capital sigma has two. *)
Definition latin_capitals : ustr := codes "ABCDEFGHIJKLMNOPQRSTUVWXYZ".
Definition latin_smalls : ustr := codes "abcdefghijklmnopqrstuvwxyz".
Definition greek_capitals : ustr :=
  [0x391; 0x392; 0x393; 0x394; 0x395; 0x396; 0x397; 0x398; 0x399; 0x39A;
   0x39B; 0x39C; 0x39D; 0x39E; 0x39F; 0x3A0; 0x3A1; 0x3A3; 0x3A4; 0x3A5;
   0x3A6; 0x3A7; 0x3A8; 0x3A9]%N.
Definition greek_smalls : ustr :=
  [0x3B1; 0x3B2; 0x3B3; 0x3B4; 0x3B5; 0x3B6; 0x3B7; 0x3B8; 0x3B9; 0x3BA;
   0x3BB; 0x3BC; 0x3BD; 0x3BE; 0x3BF; 0x3C0; 0x3C1; 0x3C3; 0x3C4; 0x3C5;
   0x3C6; 0x3C7; 0x3C8; 0x3C9]%N.
Definition final_sigma : N := 0x3C2%N.
Definition capital_sigma : N := 0x3A3%N.
Definition small_sigma : N := 0x3C3%N.

Definition alphabet : list (N * N) :=
  zip latin_capitals latin_smalls ++ zip greek_capitals greek_smalls
  ++ [(capital_sigma, final_sigma)].

(** The capital of a small letter of [alphabet]; any other code point
    stands for itself. *)
Definition capital (c : N) : N :=
  match List.find (fun p => bool_decide (p.2 = c)) alphabet with
  | Some (u, _) => u
  | None => c
  end.

(** The two names are the same letters, whatever their case. *)
Definition same_letters (a b : ustr) : Prop := capital <$> a = capital <$> b.

(** The fourth claim as it is stated, for one list and one request:
    the first category whose name has the letters of the request,
    whatever their case, is the one selected. *)
Definition matches_case_insensitively (lower : ustr -> ustr)
    (categories : list category) (category_name : ustr) : Prop :=
  forall before c after,
    categories = before ++ c :: after ->
    same_letters (cat_name c) category_name ->
    Forall (fun c' => ~ same_letters (cat_name c') category_name) before ->
    next_match lower categories category_name = Some c.

(** [str.lower] written out after CPython for the code points of
    Basic Latin, Latin-1, U+0130 and the Greek alphabet; every other
    code point is left as it is, which the real table does not do, so
    this function stands for [str.lower] only on names of those code
    points. *)
Definition in_range (lo hi c : N) : bool := ((lo <=? c) && (c <=? hi))%N.

Definition to_lower_full (c : N) : list N :=
  if in_range 65 90 c then [c + 32]%N
  else if in_range 192 222 c && negb (c =? 215)%N then [c + 32]%N
  else if (c =? 0x130)%N then [0x69; 0x307]%N
  else if in_range 0x391 0x3A9 c && negb (c =? 0x3A2)%N then [c + 32]%N
  else [c].

Definition is_cased (c : N) : bool :=
  in_range 65 90 c || in_range 97 122 c
  || (c =? 0xAA)%N || (c =? 0xB5)%N || (c =? 0xBA)%N
  || in_range 0xC0 0xD6 c || in_range 0xD8 0xF6 c || in_range 0xF8 0xFF c
  || (c =? 0x130)%N
  || (in_range 0x391 0x3A9 c && negb (c =? 0x3A2)%N) || in_range 0x3B1 0x3C9 c.

Definition is_case_ignorable (c : N) : bool :=
  (c =? 0x27)%N || (c =? 0x2E)%N || (c =? 0x3A)%N || (c =? 0x5E)%N
  || (c =? 0x60)%N || (c =? 0xA8)%N || (c =? 0xAD)%N || (c =? 0xAF)%N
  || (c =? 0xB4)%N || (c =? 0xB7)%N || (c =? 0xB8)%N
  || in_range 0x300 0x36F c.

(** The capital sigma becomes the final sigma when a cased letter comes
    before it and none comes after it, case-ignorable code points
    aside. *)
Definition handle_capital_sigma (before_rev after : ustr) : N :=
  let skip := List.find (fun c => negb (is_case_ignorable c)) in
  let cased_before :=
    match skip before_rev with Some c => is_cased c | None => false end in
  let cased_after :=
    match skip after with Some c => is_cased c | None => false end in
  if cased_before && negb cased_after then final_sigma else small_sigma.

Fixpoint lower_from (before_rev s : ustr) : ustr :=
  match s with
  | [] => []
  | c :: rest =>
      (if (c =? capital_sigma)%N
       then [handle_capital_sigma before_rev rest]
       else to_lower_full c)
      ++ lower_from (c :: before_rev) rest
  end.

Definition lower (s : ustr) : ustr := lower_from [] s.

(** Two spellings of one Greek word, in capitals and in small
    letters. *)
Definition ODOS : ustr := [0x39F; 0x394; 0x39F; 0x3A3]%N.
Definition odos : ustr := [0x3BF; 0x3B4; 0x3BF; 0x3C3]%N.

End Unicode.

(** * Properties *)

(** ** Strings *)

Module StrFacts.
Import Spec.

Lemma prefix_app (n h : string) :
  String.prefix n h = true <-> exists rest, h = n +:+ rest.
Proof.
  revert h. induction n as [|c n IH]; intros h.
  - split; [intros _; exists h; reflexivity|]. intros _. destruct h; reflexivity.
  - destruct h as [|d h]; simpl.
    + split; [discriminate|]. intros [rest H]. discriminate H.
    + destruct (Ascii.ascii_dec c d) as [->|Hne].
      * rewrite IH. split; intros [rest H]; exists rest.
        -- by rewrite H.
        -- by injection H.
      * split; [discriminate|]. intros [rest H]. injection H as H1 H2. congruence.
Qed.

Lemma contains_nil (n : string) :
  Str.contains n EmptyString = String.prefix n EmptyString || false.
Proof. reflexivity. Qed.

Lemma contains_cons (n : string) (d : ascii) (h : string) :
  Str.contains n (String d h) = String.prefix n (String d h) || Str.contains n h.
Proof. reflexivity. Qed.

(** [contains] decides the substring relation. *)
Lemma contains_substring (n h : string) :
  Str.contains n h = true <-> exists before after, h = before +:+ n +:+ after.
Proof.
  induction h as [|d h IH].
  - rewrite contains_nil, orb_false_r, prefix_app. split.
    + intros [rest H]. exists EmptyString, rest. exact H.
    + intros [[|b before] [after H]]; [by exists after|discriminate H].
  - rewrite contains_cons, orb_true_iff, prefix_app, IH. split.
    + intros [[rest H]|[before [after H]]].
      * exists EmptyString, rest. exact H.
      * exists (String d before), after. simpl. by rewrite H.
    + intros [[|b before] [after H]].
      * left. by exists after.
      * right. injection H as _ H. by exists before, after.
Qed.

Lemma lower_eq_ignore_case (a b : string) :
  Str.lower a = Str.lower b <-> eq_ignore_case a b = true.
Proof.
  revert b. induction a as [|x a IH]; intros [|y b]; simpl; try easy.
  rewrite andb_true_iff, bool_decide_eq_true, <- IH.
  split; [intros H; by injection H|intros [-> ->]; reflexivity].
Qed.

Lemma lower_char_idempotent (c : ascii) :
  Str.lower_char (Str.lower_char c) = Str.lower_char c.
Proof. destruct c as [[] [] [] [] [] [] [] []]; reflexivity. Qed.

(** Lowering is idempotent, so a name matches its own lowered form. *)
Lemma lower_idempotent (s : string) : Str.lower (Str.lower s) = Str.lower s.
Proof. induction s as [|c s IH]; simpl; [done|]. by rewrite lower_char_idempotent, IH. Qed.

End StrFacts.

(** ** The two extraction loops *)

Module ExtractFacts.
Import Py Api Spec.

(** [select] keeps the document order of the elements it matches and
    repeats none. *)
Lemma select_in_document_order (s : Soup.selector) (e : Soup.element) :
  Soup.select s e `sublist_of` Soup.descendants_of e.
Proof. apply sublist_filter. Qed.

Lemma getitem_lookup (e : Soup.element) (key : string) :
  getitem e key =
  match Soup.attrs (Soup.here e) !! key with
  | Some v => Ok v
  | None => Raise (KeyError key)
  end.
Proof. reflexivity. Qed.

Lemma fetch_categories_body_anchor (item : Soup.element) (acc : list category) :
  fetch_categories_body item acc =
  match Soup.find "a" item with
  | Some a =>
      match category_of a with
      | Some c => Ok (acc ++ [c])
      | None => Raise (KeyError "href")
      end
  | None => Ok acc
  end.
Proof.
  unfold fetch_categories_body, category_of.
  destruct (Soup.find "a" item) as [a|]; [|done].
  rewrite getitem_lookup.
  by destruct (Soup.attrs (Soup.here a) !! "href").
Qed.

(** The category loop, as a function of the anchors it meets. *)
Lemma categories_loop (items : list Soup.element) (acc : list category) :
  for_each fetch_categories_body items acc =
  match mapM category_of (anchors items) with
  | Some emitted => Ok (acc ++ emitted)
  | None => Raise (KeyError "href")
  end.
Proof.
  revert acc. induction items as [|item items IH]; intros acc.
  - simpl. by rewrite app_nil_r.
  - cbn [for_each]. rewrite fetch_categories_body_anchor.
    unfold anchors. cbn [omap list_omap]. fold (anchors items).
    destruct (Soup.find "a" item) as [a|]; cbn [bind]; [|apply IH].
    cbn [mapM].
    destruct (category_of a) as [c|]; cbn; [|done].
    rewrite IH.
    destruct (mapM category_of (anchors items)); cbn; [|done].
    by rewrite <- app_assoc.
Qed.

Lemma sku_parts_Some (item n i p : Soup.element) :
  sku_parts item = Some (n, i, p) <->
  Soup.select_one sku_title_a item = Some n
  /\ Soup.select_one product_image item = Some i
  /\ Soup.select_one hero_price_span item = Some p.
Proof.
  unfold sku_parts.
  destruct (Soup.select_one sku_title_a item),
           (Soup.select_one product_image item),
           (Soup.select_one hero_price_span item); cbn;
    intuition congruence.
Qed.

Lemma sku_parts_None (item : Soup.element) :
  sku_parts item = None <->
  Soup.select_one sku_title_a item = None
  \/ Soup.select_one product_image item = None
  \/ Soup.select_one hero_price_span item = None.
Proof.
  unfold sku_parts.
  destruct (Soup.select_one sku_title_a item),
           (Soup.select_one product_image item),
           (Soup.select_one hero_price_span item); cbn;
    intuition congruence.
Qed.

Lemma products_body_parts (item : Soup.element) (products : list product) :
  products_body item products =
  match sku_parts item with
  | Some parts =>
      match product_of parts with
      | Some p => Ok (products ++ [p])
      | None => Raise (KeyError "src")
      end
  | None => Ok products
  end.
Proof.
  unfold products_body, sku_parts.
  destruct (Soup.select_one sku_title_a item) as [n|],
           (Soup.select_one product_image item) as [i|],
           (Soup.select_one hero_price_span item) as [p|]; cbn; try done.
  rewrite getitem_lookup.
  by destruct (Soup.attrs (Soup.here i) !! "src").
Qed.

(** The product loop, as a function of the complete items it meets. *)
Lemma products_loop (items : list Soup.element) (acc : list product) :
  for_each products_body items acc =
  match mapM product_of (omap sku_parts items) with
  | Some emitted => Ok (acc ++ emitted)
  | None => Raise (KeyError "src")
  end.
Proof.
  revert acc. induction items as [|item items IH]; intros acc.
  - simpl. by rewrite app_nil_r.
  - cbn [for_each]. rewrite products_body_parts. cbn [omap list_omap].
    destruct (sku_parts item) as [parts|]; cbn [bind]; [|apply IH].
    cbn [mapM].
    destruct (product_of parts) as [p|]; cbn; [|done].
    rewrite IH.
    destruct (mapM product_of (omap sku_parts items)); cbn; [|done].
    by rewrite <- app_assoc.
Qed.


Lemma category_of_Some (a : Soup.element) (c : category) :
  category_of a = Some c <->
  exists href, Soup.attrs (Soup.here a) !! "href" = Some href
    /\ c = Category (Soup.get_text_strip a) (BASE_URL +:+ href).
Proof.
  unfold category_of.
  destruct (Soup.attrs (Soup.here a) !! "href") as [url|]; cbn.
  - split; [intros [= <-]; by exists url|intros (href & [= <-] & ->); done].
  - split; [done|intros (href & ? & _); done].
Qed.

Lemma fetch_categories_extract_Ok (soup : Soup.element) (cats : list category) :
  fetch_categories_extract soup = Ok cats <->
  Forall2 (fun a c => category_of a = Some c)
          (anchors (Soup.select carousel_item soup)) cats.
Proof.
  unfold fetch_categories_extract. rewrite categories_loop, <- mapM_Some.
  destruct (mapM category_of _); cbn; split; congruence.
Qed.

Lemma fetch_categories_extract_Raise (soup : Soup.element) (e : exn) :
  fetch_categories_extract soup = Raise e <->
  e = KeyError "href"
  /\ Exists (fun a => Soup.attrs (Soup.here a) !! "href" = None)
            (anchors (Soup.select carousel_item soup)).
Proof.
  unfold fetch_categories_extract. rewrite categories_loop.
  assert (Hnone : forall a, category_of a = None
                    <-> Soup.attrs (Soup.here a) !! "href" = None).
  { intros a. unfold category_of.
    by destruct (Soup.attrs (Soup.here a) !! "href"). }
  rewrite <- (Exists_proper _ _ Hnone _ _ eq_refl), <- mapM_None.
  destruct (mapM category_of _); cbn.
  - split; [done|by intros [_ [=]]].
  - split; [by intros [= <-]|by intros [-> _]].
Qed.

Lemma products_extract_Ok (soup : Soup.element) (products : list product) :
  products_extract soup = Ok products <->
  Forall2 (fun parts p => product_of parts = Some p)
          (omap sku_parts (Soup.select sku_item soup)) products.
Proof.
  unfold products_extract. rewrite products_loop, <- mapM_Some.
  destruct (mapM product_of _); cbn; split; congruence.
Qed.

Lemma products_extract_Raise (soup : Soup.element) (e : exn) :
  products_extract soup = Raise e <->
  e = KeyError "src"
  /\ Exists (fun parts => Soup.attrs (Soup.here parts.1.2) !! "src" = None)
            (omap sku_parts (Soup.select sku_item soup)).
Proof.
  unfold products_extract. rewrite products_loop.
  assert (Hnone : forall parts, product_of parts = None
                    <-> Soup.attrs (Soup.here parts.1.2) !! "src" = None).
  { intros [[n i] p]. unfold product_of. cbn.
    by destruct (Soup.attrs (Soup.here i) !! "src"). }
  rewrite <- (Exists_proper _ _ Hnone _ _ eq_refl), <- mapM_None.
  destruct (mapM product_of _); cbn.
  - split; [done|by intros [_ [=]]].
  - split; [by intros [= <-]|by intros [-> _]].
Qed.

End ExtractFacts.

(** ** Joining the base address and a path *)

Module UrlFacts.
Import Py Api Spec.

Lemma lstrip_slashes_length (path : string) :
  String.length (lstrip_slashes path) <= String.length path.
Proof.
  induction path as [|c rest IH]; cbn; [lia|].
  destruct (is_slash c); cbn; lia.
Qed.

Lemma lstrip_slashes_fixed (path : string) :
  lstrip_slashes path = path <-> starts_with_slash path = false.
Proof.
  destruct path as [|c rest]; cbn; [done|].
  destruct (is_slash c); [|done].
  split; [|done]. intros H.
  pose proof (lstrip_slashes_length rest) as Hlen.
  rewrite H in Hlen. cbn in Hlen. lia.
Qed.

(** Plain concatenation agrees with the one-separator join exactly on
    the paths that bring exactly one leading slash. *)
Lemma concat_is_join_iff (base path : string) :
  base +:+ path = join_one_separator base path <-> one_leading_slash path = true.
Proof.
  unfold join_one_separator. split.
  - intros H. apply (inj (String.app base)) in H.
    destruct path as [|c rest]; [discriminate H|].
    cbn in H |- *. unfold is_slash in *.
    case_bool_decide as Hc.
    + subst c. injection H as H. symmetry in H.
      apply lstrip_slashes_fixed in H. by rewrite H.
    + injection H as H _. congruence.
  - intros H. f_equal.
    destruct path as [|c rest]; [discriminate H|].
    cbn in H |- *. apply andb_true_iff in H as [Hc Hrest].
    rewrite Hc. apply bool_decide_eq_true in Hc as ->.
    apply negb_true_iff, lstrip_slashes_fixed in Hrest.
    by rewrite Hrest.
Qed.

End UrlFacts.

(** ** What the extractors emit *)

Module Extractors.
Import Py Api Spec StrFacts ExtractFacts UrlFacts.

Lemma anchors_skip (before after : list Soup.element) (item : Soup.element) :
  Soup.find "a" item = None ->
  anchors (before ++ item :: after) = anchors (before ++ after).
Proof.
  intros H. unfold anchors. rewrite !omap_app. cbn. by rewrite H.
Qed.

(** C5: a page with no carousel item yields the empty list and no
    error; an item with no anchor leaves the list as it was and raises
    nothing, so the loop runs as if the item were not there; and the
    records returned stand, one for one and in the same order, for the
    first anchors of the carousel items in document order. *)
Theorem category_extraction_skips_and_keeps_order (soup : Soup.element) :
  (Soup.select carousel_item soup = [] -> fetch_categories_extract soup = Ok [])
  /\ (forall item acc,
        Soup.find "a" item = None -> fetch_categories_body item acc = Ok acc)
  /\ (forall before item after acc,
        Soup.find "a" item = None ->
        for_each fetch_categories_body (before ++ item :: after) acc
        = for_each fetch_categories_body (before ++ after) acc)
  /\ (forall cats,
        fetch_categories_extract soup = Ok cats ->
        Forall2 (fun a c => category_of a = Some c)
                (anchors (Soup.select carousel_item soup)) cats
        /\ length cats = length (anchors (Soup.select carousel_item soup))).
Proof.
  repeat split.
  - intros H. unfold fetch_categories_extract. by rewrite H.
  - intros item acc H. rewrite fetch_categories_body_anchor. by rewrite H.
  - intros before item after acc H.
    rewrite !categories_loop. by rewrite (anchors_skip _ _ _ H).
  - by apply fetch_categories_extract_Ok.
  - symmetry. eapply Forall2_length. by apply fetch_categories_extract_Ok.
Qed.

Lemma category_extraction_skips_and_keeps_order_witness :
  fetch_categories_extract Sample.home_bare = Ok []
  /\ Forall2 (fun a c => category_of a = Some c)
             (anchors (Soup.select carousel_item Sample.home))
             [Category "Laptops" "https://www.bestbuy.com/site/laptops";
              Category "TVs" "https://www.bestbuy.comsite/tv"].
Proof.
  split.
  - apply (proj1 (category_extraction_skips_and_keeps_order Sample.home_bare)).
    reflexivity.
  - apply (proj2 (proj2 (proj2
             (category_extraction_skips_and_keeps_order Sample.home)))).
    vm_compute. reflexivity.
Defined.

(** C9: on every document the extraction written out in
    [fetch_category_products] gives the result of the extraction in
    [fetch_categories], the same list or the same error. *)
Theorem inlined_extraction_agrees (soup : Soup.element) :
  fetch_category_products_extract soup = fetch_categories_extract soup.
Proof.
  unfold fetch_category_products_extract, fetch_categories_extract.
  generalize (@nil category).
  induction (Soup.select carousel_item soup) as [|item items IH]; intros acc.
  - reflexivity.
  - cbn [for_each].
    replace (fetch_category_products_body item acc)
      with (fetch_categories_body item acc) by reflexivity.
    destruct (fetch_categories_body item acc); cbn [bind]; [apply IH|done].
Qed.

(** C3, as the code has it: every emitted address is the base address
    immediately followed by the anchor's [href]; it is the base joined
    to the path with exactly one separator exactly when the path starts
    with one slash and not with two. *)
Theorem category_url_is_concatenation (soup : Soup.element) (cats : list category) :
  fetch_categories_extract soup = Ok cats ->
  Forall2 (fun a c =>
             exists href,
               Soup.attrs (Soup.here a) !! "href" = Some href
               /\ cat_url c = BASE_URL +:+ href
               /\ (cat_url c = join_one_separator BASE_URL href
                   <-> one_leading_slash href = true))
          (anchors (Soup.select carousel_item soup)) cats.
Proof.
  intros H. apply fetch_categories_extract_Ok in H.
  eapply Forall2_impl; [exact H|].
  intros a c (href & Hhref & ->)%category_of_Some.
  exists href. cbn [cat_url]. split_and!; [done..|].
  apply concat_is_join_iff.
Qed.

Lemma category_url_is_concatenation_witness :
  Forall2 (fun a c =>
             exists href,
               Soup.attrs (Soup.here a) !! "href" = Some href
               /\ cat_url c = BASE_URL +:+ href
               /\ (cat_url c = join_one_separator BASE_URL href
                   <-> one_leading_slash href = true))
          (anchors (Soup.select carousel_item Sample.home))
          [Category "Laptops" "https://www.bestbuy.com/site/laptops";
           Category "TVs" "https://www.bestbuy.comsite/tv"].
Proof.
  apply (category_url_is_concatenation Sample.home). vm_compute. reflexivity.
Defined.

(** C3 fails as stated: a path with no leading slash is glued to the
    host name with no separator. *)
Lemma category_url_missing_separator :
  fetch_categories_extract Sample.home
  = Ok [Category "Laptops" "https://www.bestbuy.com/site/laptops";
        Category "TVs" "https://www.bestbuy.comsite/tv"]
  /\ join_one_separator BASE_URL "site/tv" = "https://www.bestbuy.com/site/tv"
  /\ ~ urls_joined_with_one_separator Sample.home.
Proof.
  split_and!; [by vm_compute..|].
  intros H.
  assert (Hrun : fetch_categories_extract Sample.home
                 = Ok [Category "Laptops" "https://www.bestbuy.com/site/laptops";
                       Category "TVs" "https://www.bestbuy.comsite/tv"])
    by (by vm_compute).
  apply H in Hrun.
  apply (Forall2_lookup_r _ _ _ 1 (Category "TVs" "https://www.bestbuy.comsite/tv"))
    in Hrun as (a & Ha & href & Hhref & Hurl); [|reflexivity].
  vm_compute in Ha. injection Ha as <-.
  vm_compute in Hhref. injection Hhref as <-.
  vm_compute in Hurl. discriminate Hurl.
Qed.

(** The same with two leading slashes: both are kept. *)
Example category_url_double_slash :
  fetch_categories_extract Sample.home_two_slashes
  = Ok [Category "TVs" "https://www.bestbuy.com//site/tv"]
  /\ one_leading_slash "//site/tv" = false.
Proof. by vm_compute. Qed.

Lemma product_of_Some
    (parts : Soup.element * Soup.element * Soup.element) (p : product) :
  product_of parts = Some p <->
  Soup.attrs (Soup.here parts.1.2) !! "src" = Some (prod_photo p)
  /\ prod_name p = Str.strip (Soup.text parts.1.1)
  /\ prod_price p = Str.strip (Soup.text parts.2).
Proof.
  destruct parts as [[n i] pr], p as [name photo price].
  unfold product_of. cbn.
  destruct (Soup.attrs (Soup.here i) !! "src") as [src|]; cbn.
  - split; [by intros [= <- <- <-]|by intros ([= <-] & -> & ->)].
  - split; [done|by intros ([=] & _)].
Qed.

(** C2, as the code has it: extraction returns a list exactly when
    every item whose three sub-selectors resolve has an image with a
    [src]; the list then holds one record for each such item and none
    for the others, in document order, and each record carries the
    trimmed text of the title anchor, the [src] of the image and the
    trimmed text of the price. *)
Theorem product_extraction_emits_complete_items
    (soup : Soup.element) (products : list product) :
  (products_extract soup = Ok products <->
   Forall2 (fun parts p =>
              Soup.attrs (Soup.here parts.1.2) !! "src" = Some (prod_photo p)
              /\ prod_name p = Str.strip (Soup.text parts.1.1)
              /\ prod_price p = Str.strip (Soup.text parts.2))
           (omap sku_parts (Soup.select sku_item soup)) products)
  /\ (forall item,
        is_Some (sku_parts item) <->
        is_Some (Soup.select_one sku_title_a item)
        /\ is_Some (Soup.select_one product_image item)
        /\ is_Some (Soup.select_one hero_price_span item))
  /\ (forall item acc, sku_parts item = None -> products_body item acc = Ok acc).
Proof.
  split_and!.
  - rewrite products_extract_Ok.
    split; intros H; (eapply Forall2_impl; [exact H|]);
      intros parts p Hp; by apply product_of_Some.
  - intros item. unfold sku_parts.
    destruct (Soup.select_one sku_title_a item),
             (Soup.select_one product_image item),
             (Soup.select_one hero_price_span item); cbn;
      rewrite ?is_Some_alt; intuition.
  - intros item acc H. rewrite products_body_parts. by rewrite H.
Qed.

Lemma product_extraction_emits_complete_items_witness :
  Forall2 (fun parts p =>
             Soup.attrs (Soup.here parts.1.2) !! "src" = Some (prod_photo p)
             /\ prod_name p = Str.strip (Soup.text parts.1.1)
             /\ prod_price p = Str.strip (Soup.text parts.2))
          (omap sku_parts (Soup.select sku_item Sample.listing))
          [Product "Laptop A" "a.jpg" "$499.99";
           Product "Laptop C" "c.jpg" "$899.00"].
Proof.
  apply (proj1 (product_extraction_emits_complete_items Sample.listing _)).
  vm_compute. reflexivity.
Defined.

(** C2 fails as stated: all three sub-selectors resolve for the one
    item of this listing, yet no record comes out, because the image
    has no [src] and the extraction raises. *)
Lemma complete_item_not_emitted :
  length (Soup.select sku_item Sample.listing_no_src) = 1
  /\ Forall (fun item =>
               is_Some (Soup.select_one sku_title_a item)
               /\ is_Some (Soup.select_one product_image item)
               /\ is_Some (Soup.select_one hero_price_span item))
            (Soup.select sku_item Sample.listing_no_src)
  /\ products_extract Sample.listing_no_src = Raise (KeyError "src")
  /\ ~ emits_complete_items Sample.listing_no_src.
Proof.
  split_and!.
  - by vm_compute.
  - apply Forall_forall. intros item Hin.
    vm_compute in Hin. apply list_elem_of_singleton in Hin as ->.
    split_and!; vm_compute; by eexists.
  - by vm_compute.
  - intros (products & H & _). vm_compute in H. discriminate H.
Qed.


Lemma next_match_cons (cat : category) (rest : list category) (q : string) :
  next_match (cat :: rest) q =
  if bool_decide (Str.lower (cat_name cat) = Str.lower q)
  then Some cat else next_match rest q.
Proof. reflexivity. Qed.

Lemma next_match_Some (categories : list category) (q : string) (c : category) :
  next_match categories q = Some c <->
  exists before after,
    categories = before ++ c :: after
    /\ Str.lower (cat_name c) = Str.lower q
    /\ Forall (fun c' => Str.lower (cat_name c') <> Str.lower q) before.
Proof.
  induction categories as [|cat rest IH].
  - split; [done|]. intros (before & after & H & _). by destruct before.
  - rewrite next_match_cons. case_bool_decide as Hm.
    + split.
      * intros [= ->]. by exists [], rest.
      * intros ([|c' before] & after & H & Hc & Hbefore).
        -- by injection H as ->.
        -- injection H as -> _. by apply Forall_cons in Hbefore as [? _].
    + rewrite IH. split.
      * intros (before & after & -> & Hc & Hbefore).
        exists (cat :: before), after. split_and!; [done..|].
        by apply Forall_cons.
      * intros ([|c' before] & after & H & Hc & Hbefore).
        -- injection H as ->. done.
        -- injection H as -> ->. apply Forall_cons in Hbefore as [_ ?].
           by exists before, after.
Qed.

Lemma next_match_None (categories : list category) (q : string) :
  next_match categories q = None <->
  Forall (fun c' => Str.lower (cat_name c') <> Str.lower q) categories.
Proof.
  induction categories as [|cat rest IH]; [by split|].
  rewrite next_match_cons, Forall_cons. case_bool_decide as Hm.
  - split; [done|]. by intros [? _].
  - rewrite IH. by split; [|intros [_ ?]].
Qed.

End Extractors.

(** ** Resolving the requested name *)

Module Resolution.
Import Unicode.

Lemma codes_inj (s t : string) : codes s = codes t -> s = t.
Proof.
  unfold codes. intros H.
  rewrite <- (string_of_list_ascii_of_string s),
          <- (string_of_list_ascii_of_string t).
  f_equal. revert H.
  generalize (list_ascii_of_string s) (list_ascii_of_string t).
  induction l as [|a l IH]; intros [|b l']; cbn; try done.
  intros [= Hab Hl]. f_equal; [|by apply IH].
  by rewrite <- (ascii_N_embedding a), <- (ascii_N_embedding b), Hab.
Qed.

Lemma codes_cons (a : ascii) (s : string) :
  codes (String a s) = N_of_ascii a :: codes s.
Proof. reflexivity. Qed.

Lemma to_lower_full_latin1 (a : ascii) :
  to_lower_full (N_of_ascii a) = [N_of_ascii (Str.lower_char a)]
  /\ (N_of_ascii a =? capital_sigma)%N = false.
Proof. destruct a as [[] [] [] [] [] [] [] []]; by vm_compute. Qed.

(** On names of code points below 256 the function written out above
    is the [lower] of the other modules. *)
Lemma lower_codes (s : string) : lower (codes s) = codes (Str.lower s).
Proof.
  unfold lower. generalize (@nil N).
  induction s as [|a s IH]; intros before; [done|].
  rewrite codes_cons. cbn [lower_from Str.lower].
  destruct (to_lower_full_latin1 a) as [-> ->].
  by rewrite codes_cons, IH.
Qed.

Lemma to_lower_full_ascii (c : N) :
  is_ascii c ->
  to_lower_full c = [ascii_lower c] /\ (c =? capital_sigma)%N = false.
Proof.
  unfold is_ascii, to_lower_full, ascii_lower, in_range, capital_sigma.
  intros Hc.
  assert (H192 : (192 <=? c)%N = false) by (apply N.leb_gt; lia).
  assert (H304 : (c =? 304)%N = false) by (apply N.eqb_neq; lia).
  assert (H913 : (913 <=? c)%N = false) by (apply N.leb_gt; lia).
  assert (H931 : (c =? 931)%N = false) by (apply N.eqb_neq; lia).
  rewrite H192, H304, H913, H931. cbn.
  by destruct ((65 <=? c)%N && (c <=? 90)%N).
Qed.

(** On names of Basic Latin it maps the capitals to the small letters
    and nothing else. *)
Lemma lower_ascii (s : ustr) :
  Forall is_ascii s -> lower s = ascii_lower <$> s.
Proof.
  intros Hs. unfold lower. generalize (@nil N).
  induction Hs as [|c s Hc _ IH]; intros before; [done|].
  cbn [lower_from]. destruct (to_lower_full_ascii c Hc) as [-> ->].
  cbn. by rewrite IH.
Qed.

Lemma ascii_in_table (c : N) : is_ascii c -> c ∈ ascii_table.
Proof.
  unfold is_ascii, ascii_table. intros Hc.
  apply list_elem_of_fmap. exists (N.to_nat c). split; [lia|].
  apply elem_of_seq. lia.
Qed.

Lemma ascii_letter_agree (x y : N) :
  is_ascii x -> is_ascii y ->
  (ascii_lower x = ascii_lower y <-> capital x = capital y).
Proof.
  intros Hx%ascii_in_table Hy%ascii_in_table.
  assert (Hall :
    forallb (fun x => forallb (fun y =>
      Bool.eqb (bool_decide (ascii_lower x = ascii_lower y))
               (bool_decide (capital x = capital y))) ascii_table)
      ascii_table = true) by (by vm_compute).
  rewrite forallb_forall in Hall.
  apply list_elem_of_In, Hall in Hx. rewrite forallb_forall in Hx.
  apply list_elem_of_In, Hx, Bool.eqb_prop in Hy.
  by rewrite <- (bool_decide_eq_true (ascii_lower x = ascii_lower y)), Hy,
             bool_decide_eq_true.
Qed.

Lemma ascii_names_agree (a b : ustr) :
  Forall is_ascii a -> Forall is_ascii b ->
  (ascii_lower <$> a = ascii_lower <$> b <-> same_letters a b).
Proof.
  unfold same_letters. intros Ha. revert b.
  induction Ha as [|x a Hx _ IH]; intros [|y b] Hb; cbn; try done.
  apply Forall_cons in Hb as [Hy Hb].
  split; intros [= Hxy Hab]; f_equal;
    try (by apply (ascii_letter_agree x y)); by apply IH.
Qed.

Section Resolution.
Variable lower : ustr -> ustr.

Lemma next_match_first (categories : list category) (q : ustr) (c : category) :
  next_match lower categories q = Some c <->
  exists before after,
    categories = before ++ c :: after
    /\ lower (cat_name c) = lower q
    /\ Forall (fun c' => lower (cat_name c') <> lower q) before.
Proof.
  induction categories as [|cat rest IH].
  - split; [done|]. intros (before & after & H & _). by destruct before.
  - cbn [next_match]. case_bool_decide as Hm.
    + split.
      * intros [= ->]. by exists [], rest.
      * intros ([|c' before] & after & H & Hc & Hbefore).
        -- by injection H as ->.
        -- injection H as -> _. by apply Forall_cons in Hbefore as [? _].
    + rewrite IH. split.
      * intros (before & after & -> & Hc & Hbefore).
        exists (cat :: before), after. split_and!; [done..|].
        by apply Forall_cons.
      * intros ([|c' before] & after & H & Hc & Hbefore).
        -- injection H as ->. done.
        -- injection H as -> ->. apply Forall_cons in Hbefore as [_ ?].
           by exists before, after.
Qed.

Lemma next_match_none (categories : list category) (q : ustr) :
  next_match lower categories q = None <->
  Forall (fun c' => lower (cat_name c') <> lower q) categories.
Proof.
  induction categories as [|cat rest IH]; [by split|].
  cbn [next_match]. rewrite Forall_cons. case_bool_decide as Hm.
  - split; [done|]. by intros [? _].
  - rewrite IH. by split; [|intros [_ ?]].
Qed.

(** The resolution of the handlers is this one on names of code
    points below 256. *)
Lemma handler_resolution_is_restriction
    (categories : list Api.category) (q : string) :
  (forall s, lower (codes s) = codes (Str.lower s)) ->
  next_match lower (of_category <$> categories) (codes q)
  = of_category <$> Api.next_match categories q.
Proof.
  intros Hlower. induction categories as [|cat rest IH]; [done|].
  cbn [fmap list_fmap next_match Api.next_match of_category cat_name].
  rewrite !Hlower, IH.
  case_bool_decide as H1; case_bool_decide as H2; try done.
  - by apply codes_inj in H1.
  - by rewrite H2 in H1.
Qed.

Hypothesis lower_on_ascii :
  forall s, Forall is_ascii s -> lower s = ascii_lower <$> s.

(** C4, as the code has it: the resolution selects the first category,
    in the order of the list, whose name has the same lowered form as
    the requested name, and none exactly when no name has.  For names
    and requests of Basic Latin, where [str.lower] turns capitals into
    small letters and nothing else, equal lowered forms are the same
    letters whatever their case, over the whole name: a category named
    Laptops is found by laptops, LAPTOPS and Laptops alike, ahead of
    any later match. *)
Theorem resolution_first_equal_lowered_name
    (categories : list category) (category_name : ustr) :
  (forall c,
     next_match lower categories category_name = Some c <->
     exists before after,
       categories = before ++ c :: after
       /\ lower (cat_name c) = lower category_name
       /\ Forall (fun c' => lower (cat_name c') <> lower category_name) before)
  /\ (next_match lower categories category_name = None <->
      Forall (fun c' => lower (cat_name c') <> lower category_name) categories)
  /\ (forall name,
        Forall is_ascii name -> Forall is_ascii category_name ->
        (lower name = lower category_name <-> same_letters name category_name))
  /\ (forall url rest,
        Forall (fun q => next_match lower (Category (codes "Laptops") url :: rest)
                                    (codes q)
                         = Some (Category (codes "Laptops") url))
               ["laptops"; "LAPTOPS"; "Laptops"]).
Proof.
  split_and!.
  - intros c. apply next_match_first.
  - apply next_match_none.
  - intros name Hname Hq. rewrite !lower_on_ascii by done.
    by apply ascii_names_agree.
  - intros url rest. repeat constructor; cbn [next_match cat_name];
      rewrite !lower_on_ascii by (by vm_compute; repeat constructor);
      by vm_compute.
Qed.

End Resolution.

Lemma resolution_first_equal_lowered_name_witness :
  next_match lower
    [Category (codes "TVs") (codes "/tv");
     Category (codes "Laptops") (codes "/a");
     Category (codes "LAPTOPS") (codes "/b")] (codes "laptops")
  = Some (Category (codes "Laptops") (codes "/a"))
  /\ same_letters (codes "Laptops") (codes "laptops").
Proof.
  split.
  - apply (proj1 (resolution_first_equal_lowered_name lower lower_ascii _ _)).
    exists [Category (codes "TVs") (codes "/tv")],
           [Category (codes "LAPTOPS") (codes "/b")].
    split_and!; [done|by vm_compute|].
    apply Forall_singleton. by vm_compute.
  - apply (proj1 (proj2 (proj2 (resolution_first_equal_lowered_name
                                  lower lower_ascii [] (codes "laptops")))));
      [by vm_compute; repeat constructor..|].
    by vm_compute.
Defined.

(** C4 fails as stated: the category is named in Greek capitals and
    the request spells the same word in small letters; the lowered
    forms differ in the last letter, so the request finds nothing. *)
Lemma sigma_names_do_not_match :
  same_letters ODOS odos
  /\ lower ODOS = [0x3BF; 0x3B4; 0x3BF; final_sigma]%N
  /\ lower odos = odos
  /\ next_match lower [Category ODOS (codes "/site/odos")] odos = None
  /\ ~ matches_case_insensitively lower [Category ODOS (codes "/site/odos")] odos.
Proof.
  split_and!; try by vm_compute.
  intros H.
  specialize (H [] (Category ODOS (codes "/site/odos")) [] eq_refl).
  assert (Hnone : next_match lower [Category ODOS (codes "/site/odos")] odos
                  = None) by (by vm_compute).
  rewrite Hnone in H. discriminate H; [by vm_compute|constructor].
Qed.

End Resolution.

(** ** The browser session *)

Module Session.
Import Py Browser Spec.

Ltac run_step :=
  unfold fetch_page_source, fetch_page_source_block, async_with_playwright,
    bind, call, ret,
    chromium_launch, new_page, page_goto, page_content, page_click,
    page_wait_for_load_state, browser_close, log, start_driver, stop_driver,
    set_browser, set_page, close_all, initial;
  cbn.




(** C6: when the first read of the page shows the country notice, a
    run that reaches its final read has issued, between the two reads,
    one click on the US link and then one wait for network idle, and
    no other interaction before or after; when the first read does not
    show it, the run issues no interaction at all. *)
Theorem interstitial_triggers_one_interaction (sc : script) (url c : string) :
  on_content sc 0 = Ok c ->
  let out := fetch_page_source sc url initial in
  let dismiss :=
    if Str.contains "Choose a country" c then interstitial else [] in
  (Str.contains "Choose a country" c = false -> interactions (trace out.2) = [])
  /\ (count_occ event_eq_dec (trace out.2) EvContent = 2 ->
      exists rest,
        trace out.2 = prologue url ++ dismiss ++ EvContent :: rest
        /\ interactions rest = [])
  /\ (forall content,
        out.1 = Ok content ->
        on_content sc 1 = Ok content
        /\ trace out.2 = prologue url ++ dismiss ++ epilogue).
Proof.
  intros Hfirst. destruct sc as [st la np go co cl wa clo]. cbn in Hfirst.
  run_step.
  destruct st, la, np, go; cbn; try (split_and!; [done|done|by intros ?]).
  rewrite Hfirst. cbn.
  destruct (Str.contains "Choose a country" c); cbn.
  - destruct cl; cbn; [split_and!; [done|done|by intros ?]|].
    destruct wa; cbn; [split_and!; [done|done|by intros ?]|].
    destruct (co 1) as [m|e]; cbn.
    + destruct clo; cbn.
      * split_and!; [done| |by intros ?]. intros _. by eexists.
      * split_and!; [done| |by intros ? [= <-]]. intros _. by eexists.
    + split_and!; [done| |by intros ?]. intros _. by eexists.
  - destruct (co 1) as [m|e]; cbn.
    + destruct clo; cbn.
      * split_and!; [done| |by intros ?]. intros _. by eexists.
      * split_and!; [done| |by intros ? [= <-]]. intros _. by eexists.
    + split_and!; [done| |by intros ?]. intros _. by eexists.
Qed.

Lemma interstitial_triggers_one_interaction_witness :
  interactions
    (trace (fetch_page_source (Sample.serves "keep shopping") "u" initial).2) = []
  /\ trace (fetch_page_source (Sample.serves "Choose a country.") "u" initial).2
     = prologue "u" ++ interstitial ++ epilogue.
Proof.
  split.
  - apply (proj1 (interstitial_triggers_one_interaction
                    (Sample.serves "keep shopping") "u" "keep shopping" eq_refl)).
    reflexivity.
  - apply (proj2 (proj2 (interstitial_triggers_one_interaction
                    (Sample.serves "Choose a country.") "u" "Choose a country."
                    eq_refl)) "Choose a country.").
    reflexivity.
Defined.

End Session.

(** ** The handlers *)

Module Handlers.
Import Py Api Spec ExtractFacts.

Section Handlers.
Variable html_parser : string -> Soup.tag.
Variable web : nat -> string -> Browser.script.

#[local] Abbreviation next_run := (Api.next_run web).
#[local] Abbreviation BeautifulSoup := (Api.BeautifulSoup html_parser).
#[local] Abbreviation fetch_categories := (Api.fetch_categories html_parser web).
#[local] Abbreviation fetch_category_products := (Api.fetch_category_products html_parser web).

Lemma fetch_page_source_run (url : string) (w : list fetch) :
  fetch_page_source web url w
  = ((next_run w url).1, w ++ [Fetch url (next_run w url).2]).
Proof. unfold fetch_page_source. by destruct (next_run w url). Qed.

Lemma category_products_extract_Raise (soup : Soup.element) (e : exn) :
  fetch_category_products_extract soup = Raise e -> e = KeyError "href".
Proof.
  change (fetch_category_products_extract soup)
    with (fetch_categories_extract soup).
  by intros [-> _]%fetch_categories_extract_Raise.
Qed.

(** [fetch_categories], path by path. *)
Lemma fetch_categories_paths (w : list fetch) :
  fetch_categories w =
  (match (next_run w BASE_URL).1 with
   | Raise e => if is_Exception e then Raise (HTTPException 500 (str e)) else Raise e
   | Ok page_source =>
       match fetch_categories_extract (BeautifulSoup page_source) with
       | Raise e => Raise (HTTPException 500 (str e))
       | Ok categories => Ok (Categories categories)
       end
   end,
   w ++ [Fetch BASE_URL (next_run w BASE_URL).2]).
Proof.
  unfold Api.fetch_categories, try_except_Exception, hbind.
  rewrite fetch_page_source_run.
  destruct (next_run w BASE_URL).1 as [page_source|e]; [|by destruct (is_Exception e)].
  unfold lift, hret, hraise.
  destruct (fetch_categories_extract _) as [categories|e] eqn:He; [done|].
  by apply fetch_categories_extract_Raise in He as [-> _].
Qed.

(** [fetch_category_products], path by path. *)
Lemma fetch_category_products_paths (category_name : string) (w : list fetch) :
  fetch_category_products category_name w =
  let w1 := w ++ [Fetch BASE_URL (next_run w BASE_URL).2] in
  match (next_run w BASE_URL).1 with
  | Raise e =>
      (if is_Exception e then Raise (HTTPException 500 (str e)) else Raise e, w1)
  | Ok page_source =>
      match fetch_category_products_extract (BeautifulSoup page_source) with
      | Raise e => (Raise (HTTPException 500 (str e)), w1)
      | Ok categories =>
          match next_match categories category_name with
          | None =>
              (Raise (HTTPException 500
                        (str (HTTPException 404
                                ("Category '" +:+ category_name
                                 +:+ "' not found.")))), w1)
          | Some category =>
              let run2 := next_run w1 (cat_url category) in
              (match run2.1 with
               | Raise e =>
                   if is_Exception e then Raise (HTTPException 500 (str e))
                   else Raise e
               | Ok page_source2 =>
                   match products_extract (BeautifulSoup page_source2) with
                   | Raise e => Raise (HTTPException 500 (str e))
                   | Ok products => Ok (Products products)
                   end
               end,
               w1 ++ [Fetch (cat_url category) run2.2])
          end
      end
  end.
Proof.
  unfold Api.fetch_category_products, try_except_Exception, hbind.
  rewrite fetch_page_source_run. cbn zeta.
  destruct (next_run w BASE_URL).1 as [page_source|e]; [|by destruct (is_Exception e)].
  unfold lift, hret, hraise.
  destruct (fetch_category_products_extract _) as [categories|e] eqn:He.
  2:{ by apply category_products_extract_Raise in He as ->. }
  destruct (next_match categories category_name) as [category|]; [|done].
  rewrite fetch_page_source_run.
  destruct (next_run _ (cat_url category)).1 as [page_source2|e];
    [|by destruct (is_Exception e)].
  destruct (products_extract _) as [products|e] eqn:He2; [done|].
  by apply products_extract_Raise in He2 as [-> _].
Qed.


(** C1 against the code: when no extracted category matches the
    requested name, the handler raises the 404 inside its own
    [try], the [except Exception] clause catches it, and the request
    fails with status 500; the detail is the text of the caught 404,
    which still names the requested category. *)
Theorem not_found_reported_as_500
    (category_name : string) (w : list fetch)
    (page_source : string) (categories : list category) :
  (next_run w BASE_URL).1 = Ok page_source ->
  fetch_category_products_extract (BeautifulSoup page_source) = Ok categories ->
  next_match categories category_name = None ->
  let out := fetch_category_products category_name w in
  out.1 = Raise (HTTPException 500
                   ("404: Category '" +:+ category_name +:+ "' not found."))
  /\ http_status out.1 = 500.
Proof.
  intros Hrun Hcats Hnone. cbn zeta.
  rewrite fetch_category_products_paths. cbn zeta.
  by rewrite Hrun, Hcats, Hnone.
Qed.

(** C8: a successful invocation adds exactly two fetches to those made
    before it, whatever they were: a browser run against the base
    address, then one against the address of the matched category; an
    invocation that finds no match adds exactly the first. *)
Theorem category_products_fetch_count (category_name : string) (w : list fetch) :
  let out := fetch_category_products category_name w in
  let run1 := next_run w BASE_URL in
  (forall response,
     out.1 = Ok response ->
     exists page_source categories category,
       run1.1 = Ok page_source
       /\ fetch_category_products_extract (BeautifulSoup page_source) = Ok categories
       /\ next_match categories category_name = Some category
       /\ out.2 = w ++ [Fetch BASE_URL run1.2;
                        Fetch (cat_url category)
                              (next_run (w ++ [Fetch BASE_URL run1.2])
                                        (cat_url category)).2]
       /\ length out.2 = length w + 2)
  /\ (forall page_source categories,
        run1.1 = Ok page_source ->
        fetch_category_products_extract (BeautifulSoup page_source) = Ok categories ->
        next_match categories category_name = None ->
        out.2 = w ++ [Fetch BASE_URL run1.2]
        /\ length out.2 = length w + 1).
Proof.
  cbn zeta. rewrite fetch_category_products_paths. cbn zeta. split.
  - intros response.
    destruct (next_run w BASE_URL).1 as [page_source|e];
      [|by destruct (is_Exception e)].
    destruct (fetch_category_products_extract _) as [categories|e] eqn:Hcats;
      [|done].
    destruct (next_match categories category_name) as [category|] eqn:Hmatch;
      [|done].
    intros _. exists page_source, categories, category.
    cbn [snd]. rewrite <- app_assoc. split_and!; try done.
    rewrite length_app. cbn. lia.
  - intros page_source categories -> -> ->. cbn [snd].
    split; [done|]. rewrite length_app. cbn. lia.
Qed.

(** C10: a carousel anchor with no [href] makes [fetch_categories]
    fail with status 500 and the text of the key error; so does, in
    [fetch_category_products], the image with no [src] of an item whose
    three sub-selectors resolve.  Neither item is skipped. *)
Theorem missing_attribute_surfaces_as_500 :
  (forall w page_source a,
     (next_run w BASE_URL).1 = Ok page_source ->
     a ∈ anchors (Soup.select carousel_item (BeautifulSoup page_source)) ->
     Soup.attrs (Soup.here a) !! "href" = None ->
     fetch_categories_extract (BeautifulSoup page_source) = Raise (KeyError "href")
     /\ (fetch_categories w).1 = Raise (HTTPException 500 "'href'")
     /\ http_status (fetch_categories w).1 = 500)
  /\ (forall category_name w page_source categories category page_source2 parts,
        (next_run w BASE_URL).1 = Ok page_source ->
        fetch_category_products_extract (BeautifulSoup page_source) = Ok categories ->
        next_match categories category_name = Some category ->
        (next_run (w ++ [Fetch BASE_URL (next_run w BASE_URL).2])
                  (cat_url category)).1 = Ok page_source2 ->
        parts ∈ omap sku_parts (Soup.select sku_item (BeautifulSoup page_source2)) ->
        Soup.attrs (Soup.here parts.1.2) !! "src" = None ->
        products_extract (BeautifulSoup page_source2) = Raise (KeyError "src")
        /\ (fetch_category_products category_name w).1
           = Raise (HTTPException 500 "'src'")
        /\ http_status (fetch_category_products category_name w).1 = 500).
Proof.
  split.
  - intros w page_source a Hrun Hin Hnone.
    assert (Hraise : fetch_categories_extract (BeautifulSoup page_source)
                     = Raise (KeyError "href")).
    { apply fetch_categories_extract_Raise. split; [done|].
      apply Exists_exists. by exists a. }
    rewrite fetch_categories_paths, Hrun, Hraise. by split_and!.
  - intros category_name w page_source categories category page_source2 parts
      Hrun Hcats Hmatch Hrun2 Hin Hnone.
    assert (Hraise : products_extract (BeautifulSoup page_source2)
                     = Raise (KeyError "src")).
    { apply products_extract_Raise. split; [done|].
      apply Exists_exists. by exists parts. }
    rewrite fetch_category_products_paths. cbn zeta.
    rewrite Hrun, Hcats, Hmatch. cbn zeta. rewrite Hrun2, Hraise. by split_and!.
Qed.

End Handlers.

Lemma not_found_reported_as_500_witness :
  let out :=
    Api.fetch_category_products (Sample.parser Sample.pages)
      (Sample.site "home" "listing") "Drones" [] in
  out.1 = Raise (HTTPException 500 "404: Category 'Drones' not found.")
  /\ http_status out.1 = 500.
Proof.
  apply (not_found_reported_as_500 (Sample.parser Sample.pages)
           (Sample.site "home" "listing") "Drones" [] "home"
           [Category "Laptops" "https://www.bestbuy.com/site/laptops";
            Category "TVs" "https://www.bestbuy.comsite/tv"]);
    by vm_compute.
Defined.

Lemma category_products_fetch_count_witness :
  length (Api.fetch_category_products (Sample.parser Sample.pages)
            (Sample.site "home" "listing") "LAPTOPS" []).2 = 0 + 2
  /\ length (Api.fetch_category_products (Sample.parser Sample.pages)
               (Sample.site "home" "listing") "Drones" []).2 = 0 + 1.
Proof.
  split.
  - destruct (proj1 (category_products_fetch_count (Sample.parser Sample.pages)
                       (Sample.site "home" "listing") "LAPTOPS" [])
                (Products [Product "Laptop A" "a.jpg" "$499.99";
                           Product "Laptop C" "c.jpg" "$899.00"]))
      as (? & ? & ? & _ & _ & _ & _ & Hlen); [by vm_compute|exact Hlen].
  - apply (proj2 (category_products_fetch_count (Sample.parser Sample.pages)
                    (Sample.site "home" "listing") "Drones" []) "home"
             [Category "Laptops" "https://www.bestbuy.com/site/laptops";
              Category "TVs" "https://www.bestbuy.comsite/tv"]);
      by vm_compute.
Defined.

(** No cache: asking twice for the same category fetches four pages. *)
Example two_invocations_four_fetches :
  let handler :=
    Api.fetch_category_products (Sample.parser Sample.pages)
      (Sample.site "home" "listing") "laptops" in
  map fetch_url (handler (handler []).2).2
  = [BASE_URL; "https://www.bestbuy.com/site/laptops";
     BASE_URL; "https://www.bestbuy.com/site/laptops"].
Proof. by vm_compute. Qed.

Lemma missing_attribute_surfaces_as_500_witness :
  (Api.fetch_categories (Sample.parser Sample.pages)
     (Sample.site "no_href" "listing") []).1
  = Raise (HTTPException 500 "'href'")
  /\ (Api.fetch_category_products (Sample.parser Sample.pages)
        (Sample.site "home" "no_src") "laptops" []).1
     = Raise (HTTPException 500 "'src'").
Proof.
  split.
  - destruct (anchors (Soup.select carousel_item Sample.home_no_href))
      as [|a rest] eqn:Ha; [by vm_compute in Ha|].
    apply (proj1 (missing_attribute_surfaces_as_500 (Sample.parser Sample.pages)
                    (Sample.site "no_href" "listing")) [] "no_href" a).
    + by vm_compute.
    + change (Api.BeautifulSoup (Sample.parser Sample.pages) "no_href")
        with Sample.home_no_href.
      rewrite Ha. by left.
    + vm_compute in Ha. by injection Ha as <- <-.
  - destruct (omap sku_parts (Soup.select sku_item Sample.listing_no_src))
      as [|parts rest] eqn:Hparts; [by vm_compute in Hparts|].
    apply (proj2 (missing_attribute_surfaces_as_500 (Sample.parser Sample.pages)
                    (Sample.site "home" "no_src")) "laptops" [] "home"
             [Category "Laptops" "https://www.bestbuy.com/site/laptops";
              Category "TVs" "https://www.bestbuy.comsite/tv"]
             (Category "Laptops" "https://www.bestbuy.com/site/laptops")
             "no_src" parts).
    + by vm_compute.
    + by vm_compute.
    + by vm_compute.
    + by vm_compute.
    + change (Api.BeautifulSoup (Sample.parser Sample.pages) "no_src")
        with Sample.listing_no_src.
      rewrite Hparts. by left.
    + vm_compute in Hparts. by injection Hparts as <- <-.
Defined.

End Handlers.

(** * Further properties *)

(** ** Browser runs, path by path *)

Module Runs.
Import Py Browser Spec Observe Session.

(** Every way the calls after the navigation can turn out. *)
Ltac all_paths co cl wa clo :=
  destruct (co 0) as [?c|?e] eqn:?Hread0; cbn;
  [ destruct (Str.contains "Choose a country" _) eqn:?Hnotice; cbn;
    [ destruct cl; cbn;
      [|destruct wa; cbn;
        [|destruct (co 1) eqn:?Hread1; cbn; [destruct clo; cbn|]]]
    | destruct (co 1) eqn:?Hread1; cbn; [destruct clo; cbn|] ]
  | ].

(** X1: [fetch_page_source] returns markup exactly when every call it
    issues returns: start, launch, new page, navigation, both reads
    and the explicit close, and the click and the wait when the first
    read shows the country notice.  The markup returned is that of the
    second read. *)
Theorem fetch_page_source_returns_iff (sc : script) (url content : string) :
  (fetch_page_source sc url initial).1 = Ok content <->
  on_start sc = None /\ on_launch sc = None /\ on_new_page sc = None
  /\ on_goto sc = None
  /\ (exists c,
        on_content sc 0 = Ok c
        /\ (Str.contains "Choose a country" c = true ->
            on_click sc = None /\ on_wait sc = None))
  /\ on_content sc 1 = Ok content
  /\ on_close sc = None.
Proof.
  destruct sc as [st la np go co cl wa clo]. run_step.
  destruct st, la, np, go; cbn;
    try (split; [done|intros (?&?&?&?&_); done]).
  destruct (co 0) as [c|e] eqn:Hfirst; cbn.
  2:{ split; [done|]. by intros (_&_&_&_&(c & ? & _)&_). }
  destruct (Str.contains "Choose a country" c) eqn:Hnotice; cbn.
  - destruct cl; cbn.
    { split; [done|]. intros (_&_&_&_&(c' & [= <-] & H)&_).
      rewrite Hnotice in H. by destruct H. }
    destruct wa; cbn.
    { split; [done|]. intros (_&_&_&_&(c' & [= <-] & H)&_).
      rewrite Hnotice in H. by destruct H. }
    destruct (co 1) as [m|e]; cbn; [|split; [done|by intros (_&_&_&_&_&?&_)]].
    destruct clo; cbn; [split; [done|by intros (_&_&_&_&_&_&?)]|].
    split.
    + intros [= <-]. split_and!; try done. by exists c.
    + by intros (_&_&_&_&_&[= <-]&_).
  - destruct (co 1) as [m|e]; cbn; [|split; [done|by intros (_&_&_&_&_&?&_)]].
    destruct clo; cbn; [split; [done|by intros (_&_&_&_&_&_&?)]|].
    split.
    + intros [= <-]. split_and!; try done. exists c. split; [done|].
      by rewrite Hnotice.
    + by intros (_&_&_&_&_&[= <-]&_).
Qed.


Lemma fetch_page_source_returns_iff_witness :
  (fetch_page_source page_changes "u" initial).1 = Ok "loaded".
Proof.
  apply (proj2 (fetch_page_source_returns_iff page_changes "u" "loaded")).
  split_and!; try reflexivity. exists "loading". split; [reflexivity|].
  intros H. vm_compute in H. discriminate H.
Defined.

(** X2: a run navigates to the address it was given and to no other,
    and at most once. *)
Theorem fetch_page_source_navigates_once (sc : script) (url : string) :
  navigations (trace (fetch_page_source sc url initial).2) = []
  \/ navigations (trace (fetch_page_source sc url initial).2) = [EvGoto url].
Proof.
  destruct sc as [st la np go co cl wa clo]. run_step.
  destruct st, la, np, go; cbn; auto.
  destruct (co 0) as [c|e]; cbn; auto.
  destruct (Str.contains "Choose a country" c); cbn.
  - destruct cl; cbn; auto. destruct wa; cbn; auto.
    destruct (co 1); cbn; auto. destruct clo; cbn; auto.
  - destruct (co 1); cbn; auto. destruct clo; cbn; auto.
Qed.

(** X3: every run begins by starting the driver.  When the driver
    starts, the run ends with the exit handler, which runs exactly
    once and after every other call; when it does not, nothing else is
    called and the start's exception is the outcome. *)
Theorem fetch_page_source_frame (sc : script) (url : string) :
  let out := fetch_page_source sc url initial in
  head (trace out.2) = Some EvStart
  /\ (on_start sc = None ->
      last (trace out.2) = Some EvStop
      /\ count_occ event_eq_dec (trace out.2) EvStop = 1)
  /\ (forall e, on_start sc = Some e -> out = (Raise e, State false false false [EvStart])).
Proof.
  destruct sc as [st la np go co cl wa clo]. run_step.
  destruct st; cbn; [split_and!; [done|done|by intros ? [= <-]]|].
  destruct la, np, go; cbn; try (by split_and!; [|intros _|]).
  all_paths co cl wa clo; by split_and!; [|intros _|].
Qed.

Lemma fetch_page_source_frame_witness :
  last (trace (fetch_page_source Sample.times_out "u" initial).2) = Some EvStop
  /\ count_occ event_eq_dec
       (trace (fetch_page_source Sample.times_out "u" initial).2) EvStop = 1.
Proof.
  apply (proj1 (proj2 (fetch_page_source_frame Sample.times_out "u"))).
  reflexivity.
Defined.

(** X4: a run that returns has called [browser.close()] exactly once;
    a run that fails for any reason other than that call has never
    called it, so nothing but the exit handler follows the failure. *)
Theorem explicit_close_only_on_success (sc : script) (url : string) :
  let out := fetch_page_source sc url initial in
  (forall content,
     out.1 = Ok content ->
     count_occ event_eq_dec (trace out.2) EvBrowserClose = 1)
  /\ (forall e,
        out.1 = Raise e -> on_close sc = None ->
        count_occ event_eq_dec (trace out.2) EvBrowserClose = 0).
Proof.
  destruct sc as [st la np go co cl wa clo]. run_step.
  destruct st, la, np, go; cbn; try (by split; intros ?).
  destruct (co 0) as [c|e]; cbn; [|by split; intros ?].
  destruct (Str.contains "Choose a country" c); cbn.
  - destruct cl; cbn; [by split; intros ?|].
    destruct wa; cbn; [by split; intros ?|].
    destruct (co 1); cbn; [|by split; intros ?].
    destruct clo; cbn; by split; intros ?.
  - destruct (co 1); cbn; [|by split; intros ?].
    destruct clo; cbn; by split; intros ?.
Qed.

Lemma explicit_close_only_on_success_witness :
  count_occ event_eq_dec
    (trace (fetch_page_source (Sample.serves "markup") "u" initial).2)
    EvBrowserClose = 1
  /\ count_occ event_eq_dec
       (trace (fetch_page_source Sample.times_out "u" initial).2)
       EvBrowserClose = 0.
Proof.
  split.
  - apply (proj1 (explicit_close_only_on_success (Sample.serves "markup") "u")
             "markup").
    reflexivity.
  - apply (proj2 (explicit_close_only_on_success Sample.times_out "u")
             (PlaywrightError "Timeout 30000ms exceeded.")); reflexivity.
Defined.

(** X5: when the first read shows the country notice and the click on
    the US link raises, the run fails with that exception straight
    away: no wait, no second read and no explicit close follow, only
    the exit handler. *)
Theorem failed_click_aborts_run (sc : script) (url c : string) (e : exn) :
  on_start sc = None -> on_launch sc = None -> on_new_page sc = None ->
  on_goto sc = None ->
  on_content sc 0 = Ok c ->
  Str.contains "Choose a country" c = true ->
  on_click sc = Some e ->
  fetch_page_source sc url initial
  = (Raise e,
     State false true true (prologue url ++ [EvClick "a.us-link"; EvStop])).
Proof.
  destruct sc as [st la np go co cl wa clo]. cbn.
  intros -> -> -> -> Hfirst Hnotice ->. run_step.
  rewrite Hfirst. cbn. by rewrite Hnotice.
Qed.

Lemma failed_click_aborts_run_witness :
  fetch_page_source no_us_link "u" initial
  = (Raise (PlaywrightError "Timeout 30000ms exceeded."),
     State false true true (prologue "u" ++ [EvClick "a.us-link"; EvStop])).
Proof.
  apply (failed_click_aborts_run no_us_link "u" "Choose a country");
    reflexivity.
Defined.



End Runs.

(** ** The two endpoints *)

Module Endpoints.
Import Py Api Spec Observe ExtractFacts.

Lemma next_match_elem (categories : list category) (q : string) (c : category) :
  next_match categories q = Some c -> c ∈ categories.
Proof.
  induction categories as [|cat rest IH]; [done|].
  cbn. case_bool_decide.
  - intros [= ->]. by left.
  - intros H. right. by apply IH.
Qed.

Lemma next_match_is_Some (categories : list category) (q : string) (c : category) :
  c ∈ categories ->
  Str.lower (cat_name c) = Str.lower q ->
  is_Some (next_match categories q).
Proof.
  induction categories as [|cat rest IH]; [by intros ?%elem_of_nil|].
  intros Hin Hc. cbn. case_bool_decide as Hcat; [done|].
  apply elem_of_cons in Hin as [->|Hin]; [done|]. by apply IH.
Qed.

Lemma omap_length_le {A B} (f : A -> option B) (l : list A) :
  length (omap f l) <= length l.
Proof.
  induction l as [|x l IH]; cbn; [done|]. destruct (f x); cbn; lia.
Qed.

Lemma added_app (w new : list fetch) : added w (w ++ new) = new.
Proof. unfold added. by rewrite drop_app_length. Qed.

Section Endpoints.
Variable html_parser : string -> Soup.tag.
Variable web : nat -> string -> Browser.script.

#[local] Abbreviation next_run := (Api.next_run web).
#[local] Abbreviation BeautifulSoup := (Api.BeautifulSoup html_parser).
#[local] Abbreviation fetch_categories := (Api.fetch_categories html_parser web).
#[local] Abbreviation fetch_category_products :=
  (Api.fetch_category_products html_parser web).
#[local] Abbreviation categories_paths :=
  (Handlers.fetch_categories_paths html_parser web).
#[local] Abbreviation products_paths :=
  (Handlers.fetch_category_products_paths html_parser web).

(** X7: [fetch_categories] answers with a list exactly when the page
    fetch returns and every first anchor of a carousel item has an
    [href]; the list then holds one record for each such anchor, in
    document order. *)
Theorem fetch_categories_returns_iff (w : list fetch) (response : response) :
  (fetch_categories w).1 = Ok response <->
  exists page_source cats,
    (next_run w BASE_URL).1 = Ok page_source
    /\ Forall2 (fun a c => category_of a = Some c)
               (anchors (Soup.select carousel_item (BeautifulSoup page_source)))
               cats
    /\ response = Categories cats.
Proof.
  rewrite categories_paths. cbn [fst].
  destruct (next_run w BASE_URL).1 as [page_source|e].
  - destruct (fetch_categories_extract _) as [cats|e] eqn:He.
    + apply fetch_categories_extract_Ok in He. split.
      * intros [= <-]. by exists page_source, cats.
      * intros (ps & cats' & [= <-] & H' & ->).
        apply fetch_categories_extract_Ok in He, H'. congruence.
    + split; [done|]. intros (ps & cats' & [= <-] & H' & _).
      apply fetch_categories_extract_Ok in H'. congruence.
  - split; [by destruct (is_Exception e)|]. by intros (? & ? & ? & _).
Qed.

(** X8: on every path, whether it returns or fails, [fetch_categories]
    makes exactly one page fetch, of the base address. *)
Theorem fetch_categories_one_fetch (w : list fetch) :
  (fetch_categories w).2 = w ++ [Fetch BASE_URL (next_run w BASE_URL).2].
Proof. by rewrite categories_paths. Qed.

(** X9: on every path [fetch_category_products] first fetches the base
    address; it fetches a second page only after a category matched,
    and then the address of that category; it never fetches a third. *)
Theorem category_products_fetch_shape (category_name : string) (w : list fetch) :
  let out := fetch_category_products category_name w in
  let run1 := next_run w BASE_URL in
  added w out.2 = [Fetch BASE_URL run1.2]
  \/ exists page_source categories category,
       run1.1 = Ok page_source
       /\ fetch_category_products_extract (BeautifulSoup page_source)
          = Ok categories
       /\ next_match categories category_name = Some category
       /\ added w out.2
          = [Fetch BASE_URL run1.2;
             Fetch (cat_url category)
                   (next_run (w ++ [Fetch BASE_URL run1.2]) (cat_url category)).2].
Proof.
  cbn zeta. rewrite products_paths. cbn zeta.
  destruct (next_run w BASE_URL).1 as [page_source|e];
    [|left; cbn [snd]; by rewrite added_app].
  destruct (fetch_category_products_extract _) as [categories|e] eqn:Hcats;
    [|left; cbn [snd]; by rewrite added_app].
  destruct (next_match categories category_name) as [category|] eqn:Hmatch;
    [|left; cbn [snd]; by rewrite added_app].
  right. exists page_source, categories, category. cbn [snd].
  by rewrite <- app_assoc, added_app.
Qed.

(** X10: every address [fetch_category_products] fetches is the base
    address or the [url] of a category extracted from the home page it
    has just fetched.  The extraction does not see the requested name,
    so the name picks among addresses the page supplied and never
    becomes part of one. *)
Theorem category_products_fetches_come_from_page
    (category_name : string) (w : list fetch) :
  Forall (fun f =>
            fetch_url f = BASE_URL
            \/ exists page_source categories c,
                 (next_run w BASE_URL).1 = Ok page_source
                 /\ fetch_categories_extract (BeautifulSoup page_source)
                    = Ok categories
                 /\ c ∈ categories
                 /\ fetch_url f = cat_url c)
         (added w (fetch_category_products category_name w).2).
Proof.
  rewrite products_paths. cbn zeta.
  change (fetch_category_products_extract) with (fetch_categories_extract).
  destruct (next_run w BASE_URL).1 as [page_source|e];
    [|cbn [snd]; rewrite added_app; apply Forall_singleton; by left].
  destruct (fetch_categories_extract _) as [categories|e] eqn:Hcats;
    [|cbn [snd]; rewrite added_app; apply Forall_singleton; by left].
  destruct (next_match categories category_name) as [category|] eqn:Hmatch;
    [|cbn [snd]; rewrite added_app; apply Forall_singleton; by left].
  cbn [snd]. rewrite <- app_assoc, added_app.
  apply next_match_elem in Hmatch.
  apply Forall_cons. split; [by left|]. apply Forall_singleton. right.
  by exists page_source, categories, category.
Qed.

(** X11: every exception that either handler lets out and that derives
    from [Exception] is an HTTP exception with status 500; no request
    is ever answered with 404 or any other error status. *)
Theorem handlers_fail_with_500_only :
  (forall w e,
     (fetch_categories w).1 = Raise e -> is_Exception e = true ->
     exists detail, e = HTTPException 500 detail)
  /\ (forall category_name w e,
        (fetch_category_products category_name w).1 = Raise e ->
        is_Exception e = true ->
        exists detail, e = HTTPException 500 detail).
Proof.
  split.
  - intros w e. rewrite categories_paths. cbn [fst].
    destruct (next_run w BASE_URL).1 as [page_source|e'].
    + destruct (fetch_categories_extract _); [done|].
      intros [= <-] _. by eexists.
    + destruct (is_Exception e') eqn:He'; intros [= <-]; [by eexists|congruence].
  - intros category_name w e. rewrite products_paths. cbn zeta.
    destruct (next_run w BASE_URL).1 as [page_source|e'].
    2:{ cbn [fst].
        destruct (is_Exception e') eqn:He'; intros [= <-]; [by eexists|congruence]. }
    destruct (fetch_category_products_extract _) as [categories|e'];
      [|intros [= <-] _; by eexists].
    destruct (next_match categories category_name) as [category|];
      [|intros [= <-] _; by eexists].
    cbn [fst].
    destruct (next_run _ (cat_url category)).1 as [page_source2|e'].
    + destruct (products_extract _); [done|]. intros [= <-] _. by eexists.
    + destruct (is_Exception e') eqn:He'; intros [= <-]; [by eexists|congruence].
Qed.

(** X12: when the browser fails, on the first fetch of either handler
    or on the second fetch of [fetch_category_products], with an
    exception that derives from [Exception], the request fails with
    status 500 and the text of that exception as its detail; a
    Playwright message reaches the client word for word. *)
Theorem browser_error_text_reaches_client :
  (forall category_name w e,
     (next_run w BASE_URL).1 = Raise e -> is_Exception e = true ->
     (fetch_categories w).1 = Raise (HTTPException 500 (str e))
     /\ (fetch_category_products category_name w).1
        = Raise (HTTPException 500 (str e)))
  /\ (forall category_name w page_source categories category e,
        (next_run w BASE_URL).1 = Ok page_source ->
        fetch_category_products_extract (BeautifulSoup page_source)
        = Ok categories ->
        next_match categories category_name = Some category ->
        (next_run (w ++ [Fetch BASE_URL (next_run w BASE_URL).2])
                  (cat_url category)).1 = Raise e ->
        is_Exception e = true ->
        (fetch_category_products category_name w).1
        = Raise (HTTPException 500 (str e)))
  /\ (forall message, str (PlaywrightError message) = message).
Proof.
  split_and!.
  - intros category_name w e Hrun He.
    rewrite categories_paths, products_paths. cbn zeta.
    by rewrite Hrun, He.
  - intros category_name w page_source categories category e
      Hrun Hcats Hmatch Hrun2 He.
    rewrite products_paths. cbn zeta.
    rewrite Hrun, Hcats, Hmatch. cbn zeta. by rewrite Hrun2, He.
  - done.
Qed.

(** X13: a cancellation that interrupts the first fetch is not turned
    into an HTTP error: both handlers let it through unchanged. *)
Theorem cancellation_passes_through (category_name : string) (w : list fetch) :
  (next_run w BASE_URL).1 = Raise CancelledError ->
  (fetch_categories w).1 = Raise CancelledError
  /\ (fetch_category_products category_name w).1 = Raise CancelledError.
Proof.
  intros Hrun. rewrite categories_paths, products_paths. cbn zeta.
  by rewrite Hrun.
Qed.

(** X14: [fetch_category_products] answers with a list exactly when
    both fetches return, the categories are extracted, one of them
    matches and the products are extracted; the list is the one
    extracted from the page of the first matching category. *)
Theorem category_products_returns_iff
    (category_name : string) (w : list fetch) (response : response) :
  (fetch_category_products category_name w).1 = Ok response <->
  exists page_source categories category page_source2 products,
    (next_run w BASE_URL).1 = Ok page_source
    /\ fetch_category_products_extract (BeautifulSoup page_source) = Ok categories
    /\ next_match categories category_name = Some category
    /\ (next_run (w ++ [Fetch BASE_URL (next_run w BASE_URL).2])
                 (cat_url category)).1 = Ok page_source2
    /\ products_extract (BeautifulSoup page_source2) = Ok products
    /\ response = Products products.
Proof.
  rewrite products_paths. cbn zeta.
  destruct (next_run w BASE_URL).1 as [page_source|e].
  2:{ split; [by destruct (is_Exception e)|]. by intros (?&?&?&?&?&?&_). }
  destruct (fetch_category_products_extract _) as [categories|e] eqn:Hcats.
  2:{ split; [done|]. intros (?&?&?&?&?&[= <-]&?&_). congruence. }
  destruct (next_match categories category_name) as [category|] eqn:Hmatch.
  2:{ split; [done|]. intros (?&?&?&?&?&[= <-]&?&?&_). congruence. }
  cbn [fst].
  destruct (next_run _ (cat_url category)).1 as [page_source2|e] eqn:Hrun2.
  2:{ split; [by destruct (is_Exception e)|].
      intros (?&?&?&?&?&[= <-]&?&?&?&_). congruence. }
  destruct (products_extract _) as [products|e] eqn:Hprod.
  - split.
    + intros [= <-]. by exists page_source, categories, category, page_source2, products.
    + intros (?&?&?&?&?&[= <-]&?&?&?&?&->). congruence.
  - split; [done|]. intros (?&?&?&?&?&[= <-]&?&?&?&?&_). congruence.
Qed.

(** X15: whenever [fetch_categories] fails, [fetch_category_products]
    run against the same site fails in the same way for every requested
    name: same exception, same single fetch. *)
Theorem categories_failure_is_products_failure
    (category_name : string) (w : list fetch) (e : exn) :
  (fetch_categories w).1 = Raise e ->
  fetch_category_products category_name w = (Raise e, (fetch_categories w).2).
Proof.
  rewrite categories_paths, products_paths. cbn zeta. cbn [fst snd].
  change (fetch_category_products_extract) with (fetch_categories_extract).
  destruct (next_run w BASE_URL).1 as [page_source|e'].
  - destruct (fetch_categories_extract _); [done|]. by intros [= <-].
  - by destruct (is_Exception e'); intros [= <-].
Qed.


(** X16: every name that [fetch_categories] lists is accepted by
    [fetch_category_products] on the same site: the resolution finds a
    listed category of that name up to case, and the handler goes on to
    fetch that category's address instead of reporting it missing. *)
Theorem listed_names_resolve
    (w : list fetch) (cats : list category) (c : category) :
  (fetch_categories w).1 = Ok (Categories cats) ->
  c ∈ cats ->
  exists c',
    c' ∈ cats
    /\ next_match cats (cat_name c) = Some c'
    /\ eq_ignore_case (cat_name c') (cat_name c) = true
    /\ map fetch_url (added w (fetch_category_products (cat_name c) w).2)
       = [BASE_URL; cat_url c'].
Proof.
  rewrite categories_paths, products_paths. cbn zeta. cbn [fst].
  change (fetch_category_products_extract) with (fetch_categories_extract).
  destruct (next_run w BASE_URL).1 as [page_source|e];
    [|by destruct (is_Exception e)].
  destruct (fetch_categories_extract _) as [cats'|e]; [|done].
  intros [= ->] Hin.
  destruct (next_match_is_Some cats (cat_name c) c Hin eq_refl) as [c' Hc'].
  exists c'. rewrite Hc'. cbn [snd].
  rewrite <- app_assoc, added_app. split_and!; try done.
  - by apply next_match_elem in Hc'.
  - apply Extractors.next_match_Some in Hc' as (_ & _ & _ & Hname & _).
    by apply StrFacts.lower_eq_ignore_case.
Qed.

(** X17: an empty page is no error.  A home page with no carousel item
    makes [fetch_categories] answer with the empty list, and a matched
    category whose page has no SKU item makes [fetch_category_products]
    answer with the empty list. *)
Theorem empty_pages_give_empty_lists :
  (forall w page_source,
     (next_run w BASE_URL).1 = Ok page_source ->
     Soup.select carousel_item (BeautifulSoup page_source) = [] ->
     (fetch_categories w).1 = Ok (Categories []))
  /\ (forall category_name w page_source categories category page_source2,
        (next_run w BASE_URL).1 = Ok page_source ->
        fetch_category_products_extract (BeautifulSoup page_source)
        = Ok categories ->
        next_match categories category_name = Some category ->
        (next_run (w ++ [Fetch BASE_URL (next_run w BASE_URL).2])
                  (cat_url category)).1 = Ok page_source2 ->
        Soup.select sku_item (BeautifulSoup page_source2) = [] ->
        (fetch_category_products category_name w).1 = Ok (Products [])).
Proof.
  split.
  - intros w page_source Hrun Hnone.
    rewrite categories_paths, Hrun. cbn [fst].
    unfold fetch_categories_extract. by rewrite Hnone.
  - intros category_name w page_source categories category page_source2
      Hrun Hcats Hmatch Hrun2 Hnone.
    rewrite products_paths. cbn zeta.
    rewrite Hrun, Hcats, Hmatch. cbn zeta. rewrite Hrun2. cbn [fst].
    unfold products_extract. by rewrite Hnone.
Qed.

End Endpoints.

(** X19: neither extraction returns more records than the page has
    items: at most one category for each carousel item, at most one
    product for each SKU item. *)
Theorem at_most_one_record_per_item (soup : Soup.element) :
  (forall cats,
     fetch_categories_extract soup = Ok cats ->
     length cats <= length (Soup.select carousel_item soup))
  /\ (forall products,
        products_extract soup = Ok products ->
        length products <= length (Soup.select sku_item soup)).
Proof.
  split.
  - intros cats H%fetch_categories_extract_Ok%Forall2_length.
    rewrite <- H. apply omap_length_le.
  - intros products H%products_extract_Ok%Forall2_length.
    rewrite <- H. apply omap_length_le.
Qed.

Lemma at_most_one_record_per_item_witness :
  length [Category "Laptops" "https://www.bestbuy.com/site/laptops";
          Category "TVs" "https://www.bestbuy.comsite/tv"]
  <= length (Soup.select carousel_item Sample.home)
  /\ length [Product "Laptop A" "a.jpg" "$499.99";
             Product "Laptop C" "c.jpg" "$899.00"]
     <= length (Soup.select sku_item Sample.listing).
Proof.
  split.
  - apply (proj1 (at_most_one_record_per_item Sample.home)). by vm_compute.
  - apply (proj2 (at_most_one_record_per_item Sample.listing)). by vm_compute.
Defined.

Lemma handlers_fail_with_500_only_witness :
  (exists detail, HTTPException 500 "'href'" = HTTPException 500 detail)
  /\ (exists detail,
        HTTPException 500 "404: Category 'Drones' not found."
        = HTTPException 500 detail).
Proof.
  split.
  - apply (proj1 (handlers_fail_with_500_only (Sample.parser Sample.pages)
                    (Sample.site "no_href" "listing")) []); by vm_compute.
  - apply (proj2 (handlers_fail_with_500_only (Sample.parser Sample.pages)
                    (Sample.site "home" "listing")) "Drones" []); by vm_compute.
Defined.

Lemma browser_error_text_reaches_client_witness :
  (Api.fetch_categories (Sample.parser Sample.pages)
     (fun _ _ => Sample.times_out) []).1
  = Raise (HTTPException 500 "Timeout 30000ms exceeded.")
  /\ (Api.fetch_category_products (Sample.parser Sample.pages)
        inner_times_out "tvs" []).1
     = Raise (HTTPException 500 "Timeout 30000ms exceeded.").
Proof.
  split.
  - apply (proj1 (browser_error_text_reaches_client (Sample.parser Sample.pages)
                    (fun _ _ => Sample.times_out)) "tvs" []
             (PlaywrightError "Timeout 30000ms exceeded.")); reflexivity.
  - apply (proj1 (proj2 (browser_error_text_reaches_client
                           (Sample.parser Sample.pages) inner_times_out))
             "tvs" [] "home"
             [Category "Laptops" "https://www.bestbuy.com/site/laptops";
              Category "TVs" "https://www.bestbuy.comsite/tv"]
             (Category "TVs" "https://www.bestbuy.comsite/tv")
             (PlaywrightError "Timeout 30000ms exceeded.")); by vm_compute.
Defined.

Lemma cancellation_passes_through_witness :
  (Api.fetch_categories (Sample.parser Sample.pages) (fun _ _ => cancelled) []).1
  = Raise CancelledError
  /\ (Api.fetch_category_products (Sample.parser Sample.pages)
        (fun _ _ => cancelled) "tvs" []).1
     = Raise CancelledError.
Proof.
  apply (cancellation_passes_through (Sample.parser Sample.pages)
           (fun _ _ => cancelled) "tvs" []).
  reflexivity.
Defined.

Lemma category_products_returns_iff_witness :
  (Api.fetch_category_products (Sample.parser Sample.pages)
     (Sample.site "home" "listing") "LAPTOPS" []).1
  = Ok (Products [Product "Laptop A" "a.jpg" "$499.99";
                  Product "Laptop C" "c.jpg" "$899.00"]).
Proof.
  apply (proj2 (category_products_returns_iff (Sample.parser Sample.pages)
                  (Sample.site "home" "listing") "LAPTOPS" [] _)).
  exists "home",
    [Category "Laptops" "https://www.bestbuy.com/site/laptops";
     Category "TVs" "https://www.bestbuy.comsite/tv"],
    (Category "Laptops" "https://www.bestbuy.com/site/laptops"),
    "listing",
    [Product "Laptop A" "a.jpg" "$499.99"; Product "Laptop C" "c.jpg" "$899.00"].
  split_and!; by vm_compute.
Defined.

Lemma fetch_categories_returns_iff_witness :
  (Api.fetch_categories (Sample.parser Sample.pages)
     (Sample.site "home" "listing") []).1
  = Ok (Categories [Category "Laptops" "https://www.bestbuy.com/site/laptops";
                    Category "TVs" "https://www.bestbuy.comsite/tv"]).
Proof.
  apply (proj2 (fetch_categories_returns_iff (Sample.parser Sample.pages)
                  (Sample.site "home" "listing") [] _)).
  exists "home",
    [Category "Laptops" "https://www.bestbuy.com/site/laptops";
     Category "TVs" "https://www.bestbuy.comsite/tv"].
  split_and!; [by vm_compute| |done].
  apply fetch_categories_extract_Ok. by vm_compute.
Defined.

Lemma categories_failure_is_products_failure_witness :
  Api.fetch_category_products (Sample.parser Sample.pages)
    (Sample.site "no_href" "listing") "tvs" []
  = (Raise (HTTPException 500 "'href'"),
     (Api.fetch_categories (Sample.parser Sample.pages)
        (Sample.site "no_href" "listing") []).2).
Proof.
  apply (categories_failure_is_products_failure (Sample.parser Sample.pages)
           (Sample.site "no_href" "listing") "tvs" []).
  by vm_compute.
Defined.

Lemma listed_names_resolve_witness :
  exists c',
    c' ∈ [Category "Laptops" "https://www.bestbuy.com/site/laptops";
          Category "TVs" "https://www.bestbuy.comsite/tv"]
    /\ next_match [Category "Laptops" "https://www.bestbuy.com/site/laptops";
                   Category "TVs" "https://www.bestbuy.comsite/tv"] "TVs"
       = Some c'
    /\ eq_ignore_case (cat_name c') "TVs" = true
    /\ map fetch_url
         (added [] (Api.fetch_category_products (Sample.parser Sample.pages)
                      (Sample.site "home" "listing") "TVs" []).2)
       = [BASE_URL; cat_url c'].
Proof.
  apply (listed_names_resolve (Sample.parser Sample.pages)
           (Sample.site "home" "listing") []
           [Category "Laptops" "https://www.bestbuy.com/site/laptops";
            Category "TVs" "https://www.bestbuy.comsite/tv"]
           (Category "TVs" "https://www.bestbuy.comsite/tv")).
  - by vm_compute.
  - right. by left.
Defined.

Lemma empty_pages_give_empty_lists_witness :
  (Api.fetch_categories (Sample.parser Sample.pages)
     (Sample.site "bare" "listing") []).1 = Ok (Categories [])
  /\ (Api.fetch_category_products (Sample.parser Sample.pages)
        (Sample.site "home" "bare") "tvs" []).1 = Ok (Products []).
Proof.
  split.
  - apply (proj1 (empty_pages_give_empty_lists (Sample.parser Sample.pages)
                    (Sample.site "bare" "listing")) [] "bare"); by vm_compute.
  - apply (proj2 (empty_pages_give_empty_lists (Sample.parser Sample.pages)
                    (Sample.site "home" "bare")) "tvs" [] "home"
             [Category "Laptops" "https://www.bestbuy.com/site/laptops";
              Category "TVs" "https://www.bestbuy.comsite/tv"]
             (Category "TVs" "https://www.bestbuy.comsite/tv") "bare");
      by vm_compute.
Defined.

End Endpoints.

(** ** White space *)

Module Text.
Import Py Api Spec Observe ExtractFacts.

Lemma string_app_cons (c : ascii) (a b : string) :
  String c a +:+ b = String c (a +:+ b).
Proof. reflexivity. Qed.

Lemma string_app_nil_l (s : string) : EmptyString +:+ s = s.
Proof. reflexivity. Qed.

Lemma string_app_nil_r (s : string) : s +:+ EmptyString = s.
Proof.
  induction s as [|c s IH]; [done|]. by rewrite string_app_cons, IH.
Qed.

Lemma string_app_assoc (a b c : string) : (a +:+ b) +:+ c = a +:+ (b +:+ c).
Proof.
  induction a as [|x a IH]; [done|]. by rewrite !string_app_cons, IH.
Qed.

Lemma rev_app_rev (s1 s2 : string) :
  String.rev_app s1 s2 = String.rev s1 +:+ s2.
Proof.
  revert s2. induction s1 as [|c s1 IH]; intros s2; [done|].
  unfold String.rev. cbn [String.rev_app].
  rewrite (IH (String c s2)), (IH (String c EmptyString)).
  by rewrite string_app_assoc.
Qed.

Lemma rev_cons (c : ascii) (s : string) :
  String.rev (String c s) = String.rev s +:+ String c EmptyString.
Proof. unfold String.rev at 1. cbn [String.rev_app]. apply rev_app_rev. Qed.

Lemma rev_app_distr (a b : string) :
  String.rev (a +:+ b) = String.rev b +:+ String.rev a.
Proof.
  induction a as [|c a IH].
  - by rewrite string_app_nil_l, string_app_nil_r.
  - by rewrite string_app_cons, !rev_cons, IH, string_app_assoc.
Qed.

Lemma rev_involutive (s : string) : String.rev (String.rev s) = s.
Proof.
  induction s as [|c s IH]; [done|].
  by rewrite rev_cons, rev_app_distr, IH.
Qed.

Lemma rev_nil_inv (s : string) : String.rev s = EmptyString -> s = EmptyString.
Proof. intros H. by rewrite <- (rev_involutive s), H. Qed.

Lemma starts_with_space_app (a b : string) :
  a <> EmptyString -> starts_with_space (a +:+ b) = starts_with_space a.
Proof. by destruct a. Qed.

Lemma lstrip_suffix (s : string) : exists sp, s = sp +:+ Str.lstrip s.
Proof.
  induction s as [|c s [sp IH]]; [by exists EmptyString|].
  cbn. destruct (Str.is_space c).
  - exists (String c sp). by rewrite string_app_cons, <- IH.
  - by exists EmptyString.
Qed.

Lemma lstrip_starts (s : string) : starts_with_space (Str.lstrip s) = false.
Proof.
  induction s as [|c s IH]; [done|].
  cbn. by destruct (Str.is_space c) eqn:Hc; [|cbn].
Qed.

Lemma rstrip_starts (s : string) :
  starts_with_space s = false -> starts_with_space (Str.rstrip s) = false.
Proof.
  intros Hs. unfold Str.rstrip.
  destruct (lstrip_suffix (String.rev s)) as [sp Hsp].
  destruct (Str.lstrip (String.rev s)) as [|c v] eqn:Hv; [done|].
  apply (f_equal String.rev) in Hsp.
  rewrite rev_involutive, rev_app_distr in Hsp.
  rewrite Hsp, starts_with_space_app in Hs; [done|].
  intros H%rev_nil_inv. discriminate H.
Qed.

(** [strip] leaves no white space at either end. *)
Lemma strip_trimmed (s : string) : trimmed (Str.strip s).
Proof.
  split.
  - apply rstrip_starts, lstrip_starts.
  - unfold ends_with_space, Str.strip, Str.rstrip.
    rewrite rev_involutive. apply lstrip_starts.
Qed.

Lemma join_trimmed (parts : list string) :
  Forall (fun p => trimmed p /\ p <> EmptyString) parts ->
  trimmed (Str.join parts).
Proof.
  induction 1 as [|p parts [[Hstart Hend] Hne] _ [_ IHend]]; [done|].
  change (Str.join (p :: parts)) with (p +:+ Str.join parts). split.
  - by rewrite starts_with_space_app.
  - unfold ends_with_space in *. rewrite rev_app_distr.
    destruct (Str.join parts) as [|c rest] eqn:Hj; [done|].
    rewrite starts_with_space_app; [done|].
    intros H%rev_nil_inv. discriminate H.
Qed.

Lemma get_text_strip_trimmed (e : Soup.element) : trimmed (Soup.get_text_strip e).
Proof.
  unfold Soup.get_text_strip. apply join_trimmed, Forall_forall.
  intros p [Hp (s & -> & _)%list_elem_of_fmap]%list_elem_of_filter.
  split; [apply strip_trimmed|]. intros H. by rewrite H in Hp.
Qed.

(** X20: every category name, product name and product price that an
    extraction returns has no white space at either end. *)
Theorem emitted_text_is_trimmed (soup : Soup.element) :
  (forall cats,
     fetch_categories_extract soup = Ok cats ->
     Forall (fun c => trimmed (cat_name c)) cats)
  /\ (forall products,
        products_extract soup = Ok products ->
        Forall (fun p => trimmed (prod_name p) /\ trimmed (prod_price p))
               products).
Proof.
  split.
  - intros cats H%fetch_categories_extract_Ok.
    apply Forall_forall. intros c [i Hi]%list_elem_of_lookup.
    destruct (Forall2_lookup_r _ _ _ _ _ H Hi) as (a & _ & Ha).
    apply category_of_Some in Ha as (href & _ & ->). cbn.
    apply get_text_strip_trimmed.
  - intros products H%products_extract_Ok.
    apply Forall_forall. intros p [i Hi]%list_elem_of_lookup.
    destruct (Forall2_lookup_r _ _ _ _ _ H Hi) as ([[n im] pr] & _ & Hp).
    unfold product_of in Hp.
    destruct (Soup.attrs (Soup.here im) !! "src"); [|done].
    injection Hp as <-. cbn. split; apply strip_trimmed.
Qed.

Lemma emitted_text_is_trimmed_witness :
  Forall (fun c => trimmed (cat_name c))
         [Category "Laptops" "https://www.bestbuy.com/site/laptops";
          Category "TVs" "https://www.bestbuy.comsite/tv"]
  /\ Forall (fun p => trimmed (prod_name p) /\ trimmed (prod_price p))
            [Product "Laptop A" "a.jpg" "$499.99";
             Product "Laptop C" "c.jpg" "$899.00"].
Proof.
  split.
  - apply (proj1 (emitted_text_is_trimmed Sample.home)). by vm_compute.
  - apply (proj2 (emitted_text_is_trimmed Sample.listing)). by vm_compute.
Defined.

End Text.
